(** * Survey-Manager: the data-access facade [src/src/utils/database.ts]

    A shallow embedding of the facade [databaseUtils], of the backend it talks
    to (the Supabase tables with the row-level policies of the migrations), and
    of the local-storage fallback.

    Conventions of the embedding:
    - timestamps (the ISO strings of [createdAt], [expiresAt], [submitted_at],
      ...) are the instants they denote, in milliseconds, as [Z]; [new Date()]
      is the client clock of the world;
    - an optional TypeScript field ([?:]) or a nullable column is an [option];
      [undefined] and [null] are both [None];
    - a [Promise] of the facade resolves ([Resolved]) or rejects with an
      [Error] whose message is kept ([Rejected]);
    - a call [supabase.from(..)....] returns [{ data, error }]: it is a
      [PgResult]. *)

From Stdlib Require Import String Ascii List ZArith Bool Lia DecimalString.
From Stdlib Require Import Sorting.Permutation Sorting.Sorted.
Import ListNotations.
Open Scope string_scope.

(** ** Types [src/types/survey.ts] *)

Inductive QuestionType :=
| QText | QMultipleChoice | QMultipleSelect | QRating | QEmail | QNumber | QTextarea.

Record Question := mkQuestion {
  q_id : string;
  q_type : QuestionType;
  q_title : string;
  q_required : bool;
  q_options : option (list string);
  q_maxRating : option Z
}.

Module Survey.
Record t := mk {
  id : string;
  publicId : option string;
  title : string;
  description : string;
  questions : list Question;
  createdAt : Z;
  isActive : bool;
  allowPublicAccess : option bool;
  responseLimit : option Z;
  expiresAt : option Z
}.
End Survey.

Inductive AnswerValue := AText (s : string) | ANumber (z : Z) | AList (l : list string).

Record Answer := mkAnswer { questionId : string; value : AnswerValue }.

Module Response.
Record t := mk {
  id : string;
  surveyId : string;
  answers : list Answer;
  submittedAt : Z
}.
End Response.

(** [src/types/auth.ts] is not in the sources; the facade only reads [user.id]. *)
Module User.
Record t := mk { id : string }.
End User.

(** ** Rows [src/lib/supabase.ts] and the columns of the migrations *)

Module DatabaseSurvey.
Record t := mk {
  id : string;
  public_id : string;
  title : string;
  description : string;
  questions : list Question;
  is_active : bool;
  allow_public_access : bool;
  response_limit : option Z;
  expires_at : option Z;
  created_at : Z;
  updated_at : Z;
  user_id : option string
}.
End DatabaseSurvey.

Module DatabaseResponse.
Record t := mk {
  id : string;
  survey_id : string;
  answers : list Answer;
  submitted_at : Z;
  ip_address : option string;
  user_id : option string
}.
End DatabaseResponse.

(** [transformDatabaseSurvey] *)
Definition transformDatabaseSurvey (db : DatabaseSurvey.t) : Survey.t :=
  Survey.mk (DatabaseSurvey.id db) (Some (DatabaseSurvey.public_id db))
    (DatabaseSurvey.title db) (DatabaseSurvey.description db)
    (DatabaseSurvey.questions db) (DatabaseSurvey.created_at db)
    (DatabaseSurvey.is_active db) (Some (DatabaseSurvey.allow_public_access db))
    (DatabaseSurvey.response_limit db) (DatabaseSurvey.expires_at db).

(** [transformDatabaseResponse] *)
Definition transformDatabaseResponse (db : DatabaseResponse.t) : Response.t :=
  Response.mk (DatabaseResponse.id db) (DatabaseResponse.survey_id db)
    (DatabaseResponse.answers db) (DatabaseResponse.submitted_at db).

(** ** JavaScript values of a request payload *)

Inductive JVal :=
| JUndefined
| JBool (b : bool)
| JNum (z : Z)
| JStr (s : string)
| JTime (t : Z)
| JQuestions (qs : list Question).

(** An object literal, as its list of [key: value] entries. *)
Definition Payload := list (string * JVal).

(** [obj[key]]: [undefined] for a missing key. *)
Fixpoint get (o : Payload) (k : string) : JVal :=
  match o with
  | [] => JUndefined
  | (k', v) :: o' => if String.eqb k k' then v else get o' k
  end.

(** JavaScript truthiness ([!!v]). *)
Definition truthy (v : JVal) : bool :=
  match v with
  | JUndefined => false
  | JBool b => b
  | JNum z => negb (Z.eqb z 0)
  | JStr s => negb (String.eqb s "")
  | JTime _ => true
  | JQuestions _ => true
  end.

Definition is_undefined (v : JVal) : bool :=
  match v with JUndefined => true | _ => false end.

Definition opt_val {A} (f : A -> JVal) (o : option A) : JVal :=
  match o with Some a => f a | None => JUndefined end.

(** [transformAppSurvey] *)
Definition transformAppSurvey (s : Survey.t) : Payload :=
  [ ("id", JStr (Survey.id s));
    ("public_id", opt_val JStr (Survey.publicId s));
    ("title", JStr (Survey.title s));
    ("description", JStr (Survey.description s));
    ("questions", JQuestions (Survey.questions s));
    ("is_active", JBool (Survey.isActive s));
    ("allow_public_access", opt_val JBool (Survey.allowPublicAccess s));
    ("response_limit", opt_val JNum (Survey.responseLimit s));
    ("expires_at", opt_val JTime (Survey.expiresAt s)) ].

(** [Object.keys(o).forEach(k => { if (o[k] === undefined) delete o[k]; })] *)
Definition removeUndefined (o : Payload) : Payload :=
  filter (fun kv => negb (is_undefined (snd kv))) o.

(** The object [saveSurvey] sends:
    [{ ...transformAppSurvey(survey), user_id: user.id }], undefined entries
    removed. *)
Definition surveyData (s : Survey.t) (u : User.t) : Payload :=
  removeUndefined (transformAppSurvey s ++ [("user_id", JStr (User.id u))])%list.

(** The row [saveResponse] inserts. *)
Module ResponseInsert.
Record t := mk {
  id : string;
  survey_id : string;
  answers : list Answer;
  submitted_at : Z
}.
End ResponseInsert.

Definition responseData (r : Response.t) : ResponseInsert.t :=
  ResponseInsert.mk (Response.id r) (Response.surveyId r) (Response.answers r)
    (Response.submittedAt r).

(** ** Backend results *)

Record PgError := mkPgError { code : string; message : string }.

Inductive PgResult (A : Type) := PgOk (data : A) | PgErr (error : PgError).
Arguments PgOk {A} data.
Arguments PgErr {A} error.

(** [.single()] on the rows a query selects. *)
Definition single {A} (rows : list A) : PgResult A :=
  match rows with
  | [r] => PgOk r
  | _ => PgErr (mkPgError "PGRST116"
                  "JSON object requested, multiple (or no) rows returned")
  end.

(** The chains of query-builder calls the facade issues, one field per call
    site; the backend's state is [St]. *)
Record Backend (St : Type) := mkBackend {
  (* from('surveys').upsert(data, { onConflict: 'id' }).select().single() *)
  upsert_survey : Payload -> St -> PgResult DatabaseSurvey.t * St;
  (* from('surveys').select('*')[.eq('user_id', uid)].order('created_at', desc) *)
  select_surveys : option string -> St -> PgResult (list DatabaseSurvey.t);
  (* from('surveys').select('*').eq('public_id', p).eq('is_active', true)
       .eq('allow_public_access', true).single() *)
  select_survey_public : string -> St -> PgResult DatabaseSurvey.t;
  (* from('surveys').delete().eq('id', id)[.eq('user_id', uid)] *)
  delete_surveys : string -> option string -> St -> PgResult unit * St;
  (* from('responses').insert([data]).select().single() *)
  insert_response : ResponseInsert.t -> St -> PgResult DatabaseResponse.t * St;
  (* from('surveys').select('user_id').eq('id', id).eq('user_id', uid).single() *)
  select_survey_owner : string -> string -> St -> PgResult (option string);
  (* from('responses').select('*').eq('survey_id', id).order('submitted_at', desc) *)
  select_responses : string -> St -> PgResult (list DatabaseResponse.t);
  (* from('surveys').select('response_limit, expires_at').eq('id', id).single() *)
  select_survey_limits : string -> St -> PgResult (option Z * option Z);
  (* from('responses').select('*', { count: 'exact', head: true }).eq('survey_id', id) *)
  count_responses : string -> St -> PgResult Z
}.
Arguments upsert_survey {St} b _ _.
Arguments select_surveys {St} b _ _.
Arguments select_survey_public {St} b _ _.
Arguments delete_surveys {St} b _ _ _.
Arguments insert_response {St} b _ _.
Arguments select_survey_owner {St} b _ _ _.
Arguments select_responses {St} b _ _.
Arguments select_survey_limits {St} b _ _.
Arguments count_responses {St} b _ _.

(** ** The local store [src/utils/storage.ts] *)

Record LocalStore := mkLocalStore {
  ls_surveys : list Survey.t;
  ls_responses : list Response.t
}.

(** Modelled from the spec: [storageUtils] ([src/utils/storage.ts]) is not in
    the sources. Spec 4.3: both collections are ordered lists; [saveSurvey]
    upserts by matching on id; [deleteSurvey] removes the survey and every
    response whose survey reference matches it; no authorization filtering. *)
Fixpoint upsert_by_id (s : Survey.t) (l : list Survey.t) : list Survey.t :=
  match l with
  | [] => [s]
  | s' :: l' =>
      if String.eqb (Survey.id s') (Survey.id s) then s :: l'
      else s' :: upsert_by_id s l'
  end.

Definition storage_saveSurvey (s : Survey.t) (ls : LocalStore) : LocalStore :=
  mkLocalStore (upsert_by_id s (ls_surveys ls)) (ls_responses ls).

Definition storage_deleteSurvey (sid : string) (ls : LocalStore) : LocalStore :=
  mkLocalStore
    (filter (fun s => negb (String.eqb (Survey.id s) sid)) (ls_surveys ls))
    (filter (fun r => negb (String.eqb (Response.surveyId r) sid)) (ls_responses ls)).

Definition storage_saveResponse (r : Response.t) (ls : LocalStore) : LocalStore :=
  mkLocalStore (ls_surveys ls) (ls_responses ls ++ [r])%list.

Definition storage_getResponsesForSurvey (sid : string) (ls : LocalStore)
  : list Response.t :=
  filter (fun r => String.eqb (Response.surveyId r) sid) (ls_responses ls).

(** Spec 4.1: the survey only if active and public-access enabled. *)
Definition storage_getSurveyByPublicId (p : string) (ls : LocalStore)
  : option Survey.t :=
  find (fun s => match Survey.publicId s with
                 | Some p' => String.eqb p' p
                 | None => false
                 end
                 && Survey.isActive s
                 && match Survey.allowPublicAccess s with
                    | Some b => b | None => false end)
    (ls_surveys ls).

(** ** Promises of the facade, over the world they read and write *)

Inductive Outcome (A : Type) := Resolved (a : A) | Rejected (msg : string).
Arguments Resolved {A} a.
Arguments Rejected {A} msg.

(** The local store, the backend's state and the client clock [new Date()]. *)
Record World (St : Type) := mkWorld {
  local : LocalStore;
  remote : St;
  clock : Z
}.
Arguments mkWorld {St} local remote clock.
Arguments local {St} w.
Arguments remote {St} w.
Arguments clock {St} w.

Definition M (St A : Type) := World St -> Outcome A * World St.

Section Monad.
Context {St : Type}.

Definition ret {A} (a : A) : M St A := fun w => (Resolved a, w).

Definition bind {A B} (m : M St A) (k : A -> M St B) : M St B :=
  fun w => match m w with
           | (Resolved a, w') => k a w'
           | (Rejected e, w') => (Rejected e, w')
           end.

(** [throw new Error(msg)] *)
Definition throw {A} (msg : string) : M St A := fun w => (Rejected msg, w).

(** [await] of a backend call that may change the backend's state. *)
Definition call {A} (f : St -> PgResult A * St) : M St (PgResult A) :=
  fun w => let (r, st') := f (remote w) in
           (Resolved r, mkWorld (local w) st' (clock w)).

(** [await] of a backend read. *)
Definition query {A} (f : St -> PgResult A) : M St (PgResult A) :=
  fun w => (Resolved (f (remote w)), w).

Definition local_read {A} (f : LocalStore -> A) : M St A :=
  fun w => (Resolved (f (local w)), w).

Definition local_write (f : LocalStore -> LocalStore) : M St unit :=
  fun w => (Resolved tt, mkWorld (f (local w)) (remote w) (clock w)).

(** [new Date()] *)
Definition now : M St Z := fun w => (Resolved (clock w), w).
End Monad.

Notation "x <- c1 ;; c2" := (bind c1 (fun x => c2))
  (at level 61, c1 at next level, right associativity).

(** [s.includes(needle)] *)
Fixpoint includes (needle hay : string) : bool :=
  String.prefix needle hay
  || match hay with
     | EmptyString => false
     | String _ hay' => includes needle hay'
     end.

(** The result of [checkSurveyLimits]. *)
Record LimitCheck := mkLimitCheck { canSubmit : bool; reason : option string }.

(** ** The facade [databaseUtils] *)

Section Facade.
Context {St : Type}.
Variable be : Backend St.
(** [const useFallback = !isSupabaseConfigured] *)
Variable useFallback : bool.

(** The [if/else] chain of [saveSurvey] on a backend error. *)
Definition saveSurveyError (e : PgError) : string :=
  if String.eqb (code e) "23505" then "A survey with this ID already exists"
  else if String.eqb (code e) "42501" then
    "Permission denied. Please ensure you are signed in."
  else if includes "violates row-level security" (message e) then
    "Access denied. Please sign in to save surveys."
  else "Database error: " ++ message e.

Definition saveSurvey (survey : Survey.t) (user : option User.t)
  : M St Survey.t :=
  if useFallback then
    _ <- local_write (storage_saveSurvey survey) ;; ret survey
  else
    match user with
    | None => throw "Authentication required to save surveys"
    | Some u =>
        let data := surveyData survey u in
        if negb (truthy (get data "title")) || negb (truthy (get data "questions"))
        then throw "Survey title and questions are required"
        else
          r <- call (upsert_survey be data) ;;
          match r with
          | PgErr e => throw (saveSurveyError e)
          | PgOk d => ret (transformDatabaseSurvey d)
          end
    end.

Definition getSurveys (user : option User.t) : M St (list Survey.t) :=
  if useFallback then local_read ls_surveys
  else
    r <- query (select_surveys be (option_map User.id user)) ;;
    match r with
    | PgErr _ => throw "Failed to fetch surveys"
    | PgOk rows => ret (map transformDatabaseSurvey rows)
    end.

Definition getSurveyByPublicId (publicId : string) : M St (option Survey.t) :=
  if useFallback then local_read (storage_getSurveyByPublicId publicId)
  else
    r <- query (select_survey_public be publicId) ;;
    match r with
    | PgErr e =>
        if String.eqb (code e) "PGRST116" then ret None
        else throw "Failed to fetch survey"
    | PgOk d => ret (Some (transformDatabaseSurvey d))
    end.

Definition deleteSurvey (surveyId : string) (user : option User.t) : M St unit :=
  if useFallback then local_write (storage_deleteSurvey surveyId)
  else
    r <- call (delete_surveys be surveyId (option_map User.id user)) ;;
    match r with
    | PgErr _ => throw "Failed to delete survey"
    | PgOk _ => ret tt
    end.

(** The [if/else] chain of [saveResponse] on a backend error. *)
Definition saveResponseError (e : PgError) : string :=
  if String.eqb (code e) "23503" then
    "Survey not found or no longer accepting responses"
  else if String.eqb (code e) "42501" then
    "Permission denied. Survey may be inactive."
  else if includes "infinite recursion" (message e) then
    "Database configuration error. Please contact support."
  else if includes "violates row-level security" (message e) then
    "Unable to submit response. Survey may be inactive or expired."
  else "Database error: " ++ message e.

Definition saveResponse (response : Response.t) : M St Response.t :=
  if useFallback then
    _ <- local_write (storage_saveResponse response) ;; ret response
  else
    r <- call (insert_response be (responseData response)) ;;
    match r with
    | PgErr e => throw (saveResponseError e)
    | PgOk d => ret (transformDatabaseResponse d)
    end.

(** [if (surveyError || !survey)]: on success [survey] is the selected
    object [{ user_id }], which is truthy. *)
Definition getResponsesForSurvey (surveyId : string) (user : option User.t)
  : M St (list Response.t) :=
  if useFallback then local_read (storage_getResponsesForSurvey surveyId)
  else
    _ <- match user with
         | None => ret tt
         | Some u =>
             r <- query (select_survey_owner be surveyId (User.id u)) ;;
             match r with
             | PgErr _ => throw "Survey not found or access denied"
             | PgOk _ => ret tt
             end
         end ;;
    r <- query (select_responses be surveyId) ;;
    match r with
    | PgErr _ => throw "Failed to fetch responses"
    | PgOk rows => ret (map transformDatabaseResponse rows)
    end.

(** [survey.expiresAt && new Date() > new Date(survey.expiresAt)] *)
Definition is_expired (t : Z) (expires : option Z) : bool :=
  match expires with Some e => Z.gtb t e | None => false end.

Definition checkSurveyLimits (surveyId : string) (user : option User.t)
  : M St LimitCheck :=
  if useFallback then
    surveys <- local_read ls_surveys ;;
    match find (fun s => String.eqb (Survey.id s) surveyId) surveys with
    | None => ret (mkLimitCheck false (Some "Survey not found"))
    | Some survey =>
        t <- now ;;
        if is_expired t (Survey.expiresAt survey) then
          ret (mkLimitCheck false (Some "Survey has expired"))
        else
          match Survey.responseLimit survey with
          | Some l =>
              if truthy (JNum l) then
                responses <- local_read (storage_getResponsesForSurvey surveyId) ;;
                if Z.geb (Z.of_nat (length responses)) l then
                  ret (mkLimitCheck false (Some "Response limit reached"))
                else ret (mkLimitCheck true None)
              else ret (mkLimitCheck true None)
          | None => ret (mkLimitCheck true None)
          end
    end
  else
    r <- query (select_survey_limits be surveyId) ;;
    match r with
    | PgErr _ => ret (mkLimitCheck false (Some "Survey not found"))
    | PgOk (response_limit, expires_at) =>
        t <- now ;;
        if is_expired t expires_at then
          ret (mkLimitCheck false (Some "Survey has expired"))
        else
          match response_limit with
          | Some l =>
              if truthy (JNum l) then
                c <- query (count_responses be surveyId) ;;
                match c with
                | PgErr _ =>
                    ret (mkLimitCheck false (Some "Error checking response limit"))
                | PgOk count =>
                    if truthy (JNum count) && Z.geb count l then
                      ret (mkLimitCheck false (Some "Response limit reached"))
                    else ret (mkLimitCheck true None)
                end
              else ret (mkLimitCheck true None)
          | None => ret (mkLimitCheck true None)
          end
    end.
End Facade.

(** ** The Supabase backend: tables, triggers and row-level policies

    Tables of the schema migration (unnamed/part_007) with the [user_id]
    columns of 20250709104936_flat_cave.sql. Policies on [surveys]: those of
    unnamed/part_006 (it drops the earlier ones by name). Policies on
    [responses]: [allow_public_insert] ([WITH CHECK (true)]) and
    [allow_authenticated_select] ([USING (true)]) of unnamed/part_008, the same
    predicates as [simple_public_insert] / [simple_authenticated_select] of
    20250712080551_silent_canyon.sql. Triggers: [set_survey_user_id] and
    [set_response_user_id] as redefined in unnamed/part_008. *)
Module Pg.

Inductive Role := Anon | Authenticated (uid : string).

(** One client connection: its role ([auth.uid()]), the server's [now()]
    and the values [gen_random_uuid()] and [encode(gen_random_bytes(12),..)]
    yield for the next inserted row. *)
Record Conn := mkConn {
  role : Role;
  server_now : Z;
  fresh_uuid : string;
  fresh_public_id : string
}.

Record DB := mkDB {
  surveys : list DatabaseSurvey.t;
  responses : list DatabaseResponse.t
}.

Definition user_is (o : option string) (u : string) : bool :=
  match o with Some v => String.eqb v u | None => false end.

Definition is_public (s : DatabaseSurvey.t) : bool :=
  DatabaseSurvey.is_active s && DatabaseSurvey.allow_public_access s.

(** [authenticated_select_surveys] / [anon_select_public_surveys] *)
Definition survey_select_policy (r : Role) (s : DatabaseSurvey.t) : bool :=
  match r with
  | Anon => is_public s
  | Authenticated u => user_is (DatabaseSurvey.user_id s) u || is_public s
  end.

(** [authenticated_insert_surveys] (check), [authenticated_update_surveys]
    (using and check), [authenticated_delete_surveys] (using); no policy
    for [anon]. *)
Definition survey_owner_policy (r : Role) (s : DatabaseSurvey.t) : bool :=
  match r with
  | Anon => false
  | Authenticated u => user_is (DatabaseSurvey.user_id s) u
  end.

(** [allow_authenticated_select]; no select policy for [anon]. *)
Definition response_select_policy (r : Role) (_ : DatabaseResponse.t) : bool :=
  match r with Anon => false | Authenticated _ => true end.

Definition auth_uid (r : Role) : option string :=
  match r with Anon => None | Authenticated u => Some u end.

(** [ORDER BY key DESC] *)
Fixpoint insert_desc {A} (key : A -> Z) (x : A) (l : list A) : list A :=
  match l with
  | [] => [x]
  | y :: l' => if Z.ltb (key y) (key x) then x :: l else y :: insert_desc key x l'
  end.

Fixpoint sort_desc {A} (key : A -> Z) (l : list A) : list A :=
  match l with
  | [] => []
  | x :: l' => insert_desc key x (sort_desc key l')
  end.

Definition rls_error : PgError :=
  mkPgError "42501" "new row violates row-level security policy for table surveys".

Section Server.
Variable c : Conn.

Definition has (data : Payload) (k : string) : bool :=
  negb (is_undefined (get data k)).

Definition col_str (data : Payload) (k d : string) : string :=
  match get data k with JStr s => s | _ => d end.

Definition col_bool (data : Payload) (k : string) (d : bool) : bool :=
  match get data k with JBool b => b | _ => d end.

(** The row an [INSERT] of [data] proposes: column defaults, then the
    [BEFORE INSERT] trigger [set_survey_user_id] ([NEW.user_id :=
    auth.uid()] when a user is signed in). *)
Definition proposed_row (data : Payload) : DatabaseSurvey.t :=
  DatabaseSurvey.mk
    (col_str data "id" (fresh_uuid c))
    (col_str data "public_id" (fresh_public_id c))
    (col_str data "title" "")
    (col_str data "description" "")
    (match get data "questions" with JQuestions qs => qs | _ => [] end)
    (col_bool data "is_active" true)
    (col_bool data "allow_public_access" true)
    (match get data "response_limit" with JNum z => Some z | _ => None end)
    (match get data "expires_at" with JTime t => Some t | _ => None end)
    (server_now c) (server_now c)
    (match auth_uid (role c) with
     | Some u => Some u
     | None => match get data "user_id" with JStr s => Some s | _ => None end
     end).

(** [ON CONFLICT (id) DO UPDATE SET col = EXCLUDED.col] for each column of
    the payload; the [BEFORE UPDATE] trigger sets [updated_at]. *)
Definition merged_row (data : Payload) (old nw : DatabaseSurvey.t)
  : DatabaseSurvey.t :=
  let pick {A} (k : string) (f : DatabaseSurvey.t -> A) :=
    if has data k then f nw else f old in
  DatabaseSurvey.mk
    (DatabaseSurvey.id old)
    (pick "public_id" DatabaseSurvey.public_id)
    (pick "title" DatabaseSurvey.title)
    (pick "description" DatabaseSurvey.description)
    (pick "questions" DatabaseSurvey.questions)
    (pick "is_active" DatabaseSurvey.is_active)
    (pick "allow_public_access" DatabaseSurvey.allow_public_access)
    (pick "response_limit" DatabaseSurvey.response_limit)
    (pick "expires_at" DatabaseSurvey.expires_at)
    (DatabaseSurvey.created_at old)
    (server_now c)
    (pick "user_id" DatabaseSurvey.user_id).

(** [UNIQUE (public_id)] against the other rows. *)
Definition public_id_taken (db : DB) (row : DatabaseSurvey.t) : bool :=
  existsb (fun s => negb (String.eqb (DatabaseSurvey.id s) (DatabaseSurvey.id row))
                    && String.eqb (DatabaseSurvey.public_id s)
                                  (DatabaseSurvey.public_id row))
    (surveys db).

Definition unique_error : PgError :=
  mkPgError "23505"
    "duplicate key value violates unique constraint surveys_public_id_key".

Definition pg_upsert_survey (data : Payload) (db : DB)
  : PgResult DatabaseSurvey.t * DB :=
  let nw := proposed_row data in
  if String.eqb (DatabaseSurvey.title nw) "" && negb (has data "title") then
    (PgErr (mkPgError "23502" "null value in column title violates not-null constraint"), db)
  else if negb (survey_owner_policy (role c) nw) then (PgErr rls_error, db)
  else
    match find (fun s => String.eqb (DatabaseSurvey.id s) (DatabaseSurvey.id nw))
            (surveys db) with
    | None =>
        if public_id_taken db nw then (PgErr unique_error, db)
        else if negb (survey_select_policy (role c) nw) then (PgErr rls_error, db)
        else (PgOk nw, mkDB (surveys db ++ [nw])%list (responses db))
    | Some old =>
        let row := merged_row data old nw in
        if negb (survey_owner_policy (role c) old) then (PgErr rls_error, db)
        else if negb (survey_owner_policy (role c) row) then (PgErr rls_error, db)
        else if public_id_taken db row then (PgErr unique_error, db)
        else if negb (survey_select_policy (role c) row) then (PgErr rls_error, db)
        else
          (PgOk row,
           mkDB (map (fun s => if String.eqb (DatabaseSurvey.id s)
                                             (DatabaseSurvey.id nw)
                               then row else s) (surveys db))
                (responses db))
    end.

Definition pg_select_surveys (uf : option string) (db : DB)
  : PgResult (list DatabaseSurvey.t) :=
  PgOk (sort_desc DatabaseSurvey.created_at
          (filter (fun s => survey_select_policy (role c) s
                            && match uf with
                               | Some u => user_is (DatabaseSurvey.user_id s) u
                               | None => true
                               end)
             (surveys db))).

Definition pg_select_survey_public (p : string) (db : DB)
  : PgResult DatabaseSurvey.t :=
  single (filter (fun s => survey_select_policy (role c) s
                           && String.eqb (DatabaseSurvey.public_id s) p
                           && DatabaseSurvey.is_active s
                           && DatabaseSurvey.allow_public_access s)
            (surveys db)).

(** [DELETE] of the rows the filters and [authenticated_delete_surveys]
    let through; [ON DELETE CASCADE] removes their responses. *)
Definition deleted (sid : string) (uf : option string) (s : DatabaseSurvey.t)
  : bool :=
  String.eqb (DatabaseSurvey.id s) sid
  && match uf with Some u => user_is (DatabaseSurvey.user_id s) u | None => true end
  && survey_owner_policy (role c) s.

Definition pg_delete_surveys (sid : string) (uf : option string) (db : DB)
  : PgResult unit * DB :=
  (PgOk tt,
   mkDB (filter (fun s => negb (deleted sid uf s)) (surveys db))
        (filter (fun r => negb (existsb (fun s => deleted sid uf s
                                   && String.eqb (DatabaseSurvey.id s)
                                                 (DatabaseResponse.survey_id r))
                                  (surveys db)))
           (responses db))).

(** [INSERT ... RETURNING]: the foreign key on [survey_id], the primary
    key, the trigger [set_response_user_id], the insert policy
    ([true]) and the select policy on the returned row. *)
Definition pg_insert_response (p : ResponseInsert.t) (db : DB)
  : PgResult DatabaseResponse.t * DB :=
  let row := DatabaseResponse.mk (ResponseInsert.id p) (ResponseInsert.survey_id p)
               (ResponseInsert.answers p) (ResponseInsert.submitted_at p)
               None (auth_uid (role c)) in
  if negb (existsb (fun s => String.eqb (DatabaseSurvey.id s)
                               (ResponseInsert.survey_id p)) (surveys db)) then
    (PgErr (mkPgError "23503"
              "insert or update on table responses violates foreign key constraint responses_survey_id_fkey"), db)
  else if existsb (fun r => String.eqb (DatabaseResponse.id r) (ResponseInsert.id p))
            (responses db) then
    (PgErr (mkPgError "23505"
              "duplicate key value violates unique constraint responses_pkey"), db)
  else if negb (response_select_policy (role c) row) then
    (PgErr (mkPgError "42501"
              "new row violates row-level security policy for table responses"), db)
  else (PgOk row, mkDB (surveys db) (responses db ++ [row])%list).

Definition pg_select_survey_owner (sid uid : string) (db : DB)
  : PgResult (option string) :=
  match single (filter (fun s => survey_select_policy (role c) s
                                 && String.eqb (DatabaseSurvey.id s) sid
                                 && user_is (DatabaseSurvey.user_id s) uid)
                  (surveys db)) with
  | PgOk s => PgOk (DatabaseSurvey.user_id s)
  | PgErr e => PgErr e
  end.

Definition visible_responses (sid : string) (db : DB) : list DatabaseResponse.t :=
  filter (fun r => response_select_policy (role c) r
                   && String.eqb (DatabaseResponse.survey_id r) sid)
    (responses db).

Definition pg_select_responses (sid : string) (db : DB)
  : PgResult (list DatabaseResponse.t) :=
  PgOk (sort_desc DatabaseResponse.submitted_at (visible_responses sid db)).

Definition pg_select_survey_limits (sid : string) (db : DB)
  : PgResult (option Z * option Z) :=
  match single (filter (fun s => survey_select_policy (role c) s
                                 && String.eqb (DatabaseSurvey.id s) sid)
                  (surveys db)) with
  | PgOk s => PgOk (DatabaseSurvey.response_limit s, DatabaseSurvey.expires_at s)
  | PgErr e => PgErr e
  end.

Definition pg_count_responses (sid : string) (db : DB) : PgResult Z :=
  PgOk (Z.of_nat (length (visible_responses sid db))).

Definition backend : Backend DB :=
  mkBackend DB pg_upsert_survey pg_select_surveys pg_select_survey_public
    pg_delete_surveys pg_insert_response pg_select_survey_owner
    pg_select_responses pg_select_survey_limits pg_count_responses.
End Server.

End Pg.

(** ** Facts about the building blocks *)

Section ListFacts.
Context {A : Type}.

Lemma filter_none (P : A -> bool) (l : list A) :
  (forall y, In y l -> P y = false) -> filter P l = [].
Proof.
  induction l as [|a l IH]; simpl; intros H; [reflexivity|].
  rewrite (H a (or_introl eq_refl)). apply IH. intros y Hy. apply H. now right.
Qed.

(** A filter whose hits share the key of [x], over a list whose keys are
    unique (a [UNIQUE] or primary-key column), selects [x] alone or nothing. *)
Lemma filter_unique_key (key : A -> string) (P : A -> bool) (l : list A) (x : A) :
  NoDup (map key l) -> In x l ->
  (forall y, In y l -> P y = true -> key y = key x) ->
  filter P l = if P x then [x] else [].
Proof.
  induction l as [|a l IH]; simpl; intros Hnd Hin HP; [contradiction|].
  inversion Hnd as [|? ? Hnotin Hnd']; subst.
  destruct Hin as [<-|Hin].
  - assert (Hrest : filter P l = []).
    { apply filter_none. intros y Hy. destruct (P y) eqn:Py; [|reflexivity].
      exfalso. apply Hnotin. rewrite <- (HP y (or_intror Hy) Py).
      now apply in_map. }
    rewrite Hrest. destruct (P a); reflexivity.
  - destruct (P a) eqn:Pa.
    + exfalso. apply Hnotin. rewrite (HP a (or_introl eq_refl) Pa).
      now apply in_map.
    + apply IH; auto.
Qed.

Lemma existsb_filter (P : A -> bool) (l : list A) :
  existsb P l = match filter P l with [] => false | _ => true end.
Proof.
  induction l as [|a l IH]; simpl; [reflexivity|].
  destruct (P a); simpl; auto.
Qed.

Lemma filter_idem (P : A -> bool) (l : list A) :
  filter P (filter P l) = filter P l.
Proof.
  induction l as [|a l IH]; simpl; [reflexivity|].
  destruct (P a) eqn:Pa; simpl; [rewrite Pa, IH|]; auto.
Qed.

Lemma filter_filter_weaker (P Q : A -> bool) (l : list A) :
  (forall y, P y = true -> Q y = true) ->
  filter P (filter Q l) = filter P l.
Proof.
  intros H. induction l as [|a l IH]; simpl; [reflexivity|].
  destruct (Q a) eqn:Qa; simpl.
  - destruct (P a); now rewrite IH.
  - destruct (P a) eqn:Pa; [|exact IH].
    rewrite (H a Pa) in Qa. discriminate.
Qed.

Lemma filter_all (P : A -> bool) (l : list A) :
  (forall y, In y l -> P y = true) -> filter P l = l.
Proof.
  induction l as [|a l IH]; simpl; intros H; [reflexivity|].
  rewrite (H a (or_introl eq_refl)), IH; auto.
Qed.
End ListFacts.

Section SortFacts.
Context {A : Type} (key : A -> Z).

Definition desc (a b : A) : Prop := (key b <= key a)%Z.

Lemma insert_desc_perm (x : A) (l : list A) :
  Permutation (Pg.insert_desc key x l) (x :: l).
Proof.
  induction l as [|y l IH]; simpl; [reflexivity|].
  destruct (Z.ltb (key y) (key x)); [reflexivity|].
  rewrite IH. apply perm_swap.
Qed.

Lemma sort_desc_perm (l : list A) : Permutation (Pg.sort_desc key l) l.
Proof.
  induction l as [|x l IH]; simpl; [reflexivity|].
  rewrite insert_desc_perm. now apply perm_skip.
Qed.

Lemma insert_desc_sorted (x : A) (l : list A) :
  Sorted desc l -> Sorted desc (Pg.insert_desc key x l).
Proof.
  induction 1 as [|y l Hs IH Hhd]; simpl.
  - repeat constructor.
  - destruct (Z.ltb (key y) (key x)) eqn:Hlt.
    + apply Z.ltb_lt in Hlt. constructor; [now constructor|].
      constructor. unfold desc. lia.
    + apply Z.ltb_ge in Hlt. constructor; [exact IH|].
      destruct l as [|z l]; simpl.
      * constructor. unfold desc. lia.
      * inversion Hhd; subst.
        destruct (Z.ltb (key z) (key x)); constructor; unfold desc in *; lia.
Qed.

Lemma sort_desc_sorted (l : list A) : Sorted desc (Pg.sort_desc key l).
Proof.
  induction l as [|x l IH]; simpl; [constructor|].
  now apply insert_desc_sorted.
Qed.
End SortFacts.

Lemma select_policy_public (r : Pg.Role) (s : DatabaseSurvey.t) :
  Pg.is_public s = true -> Pg.survey_select_policy r s = true.
Proof.
  intros H. destruct r; simpl; rewrite H; auto using orb_true_r.
Qed.

Lemma owner_policy_select (r : Pg.Role) (s : DatabaseSurvey.t) :
  Pg.survey_owner_policy r s = true -> Pg.survey_select_policy r s = true.
Proof.
  destruct r; simpl; [discriminate|]. intros ->. reflexivity.
Qed.

(** ** C1: the public lookup [getSurveyByPublicId] *)

Definition expired_public_row : DatabaseSurvey.t :=
  DatabaseSurvey.mk "s1" "p1" "Feedback" "" [] true true None (Some 100%Z) 0 0
    (Some "owner").

(** C1 (counterexample): a survey that is active and public but whose
    expiration (100) lies before the current time (200) is still returned by
    [getSurveyByPublicId] to a signed-in visitor: neither the query nor the
    [authenticated_select_surveys] policy looks at [expires_at]. *)
Lemma C1_expired_survey_still_returned :
  DatabaseSurvey.expires_at expired_public_row = Some 100%Z /\
  fst (getSurveyByPublicId
         (Pg.backend (Pg.mkConn (Pg.Authenticated "visitor") 200 "uuid" "pid")) false "p1"
         (mkWorld (mkLocalStore [] []) (Pg.mkDB [expired_public_row] []) 200))
  = Resolved (Some (transformDatabaseSurvey expired_public_row)).
Proof. split; reflexivity. Qed.

(** C1 (amended): in remote mode, for every stored survey [S] (public ids
    being unique), [getSurveyByPublicId S.publicId] resolves to [S] exactly
    when [S] is active and public-access enabled, and to [null] otherwise,
    whatever the caller's role and whatever the expiration; a public id no
    survey has resolves to [null]. *)
Theorem C1_public_lookup_active_and_public (c : Pg.Conn) (w : World Pg.DB)
  (Huniq : NoDup (map DatabaseSurvey.public_id (Pg.surveys (remote w)))) :
  (forall S, In S (Pg.surveys (remote w)) ->
     fst (getSurveyByPublicId (Pg.backend c) false (DatabaseSurvey.public_id S) w)
     = Resolved (if Pg.is_public S then Some (transformDatabaseSurvey S) else None)) /\
  (forall p, ~ In p (map DatabaseSurvey.public_id (Pg.surveys (remote w))) ->
     fst (getSurveyByPublicId (Pg.backend c) false p w) = Resolved None).
Proof.
  split.
  - intros S HS. unfold getSurveyByPublicId, bind, query, ret; simpl.
    unfold Pg.pg_select_survey_public.
    rewrite (filter_unique_key DatabaseSurvey.public_id _ _ S Huniq HS).
    + rewrite String.eqb_refl, andb_true_r.
      destruct (Pg.is_public S) eqn:Hp.
      * rewrite (select_policy_public _ _ Hp). simpl.
        unfold Pg.is_public in Hp. rewrite Hp. reflexivity.
      * unfold Pg.is_public in Hp. rewrite <- andb_assoc, Hp, andb_false_r.
        reflexivity.
    + intros y _ Hy. apply andb_prop in Hy as [Hy _].
      apply andb_prop in Hy as [Hy _]. apply andb_prop in Hy as [_ Hy].
      now apply String.eqb_eq in Hy.
  - intros p Hp. unfold getSurveyByPublicId, bind, query, ret; simpl.
    unfold Pg.pg_select_survey_public.
    rewrite filter_none; [reflexivity|].
    intros y Hy. destruct (String.eqb (DatabaseSurvey.public_id y) p) eqn:E.
    + exfalso. apply String.eqb_eq in E. subst p. apply Hp. now apply in_map.
    + rewrite andb_false_r. reflexivity.
Qed.

Lemma C1_public_lookup_witness :
  fst (getSurveyByPublicId
         (Pg.backend (Pg.mkConn Pg.Anon 200 "uuid" "pid")) false "p1"
         (mkWorld (mkLocalStore [] []) (Pg.mkDB [expired_public_row] []) 200))
  = Resolved (Some (transformDatabaseSurvey expired_public_row)).
Proof.
  apply (proj1 (C1_public_lookup_active_and_public
                  (Pg.mkConn Pg.Anon 200 "uuid" "pid")
                  (mkWorld (mkLocalStore [] []) (Pg.mkDB [expired_public_row] []) 200)
                  ltac:(repeat constructor; simpl; tauto))
               expired_public_row (or_introl eq_refl)).
Defined.

(** ** C2: the client check against the backend's insert policy *)

(** The [WITH CHECK] of [Anyone can submit responses to active public
    surveys] (20250709104936_flat_cave.sql, 20250711073227_solitary_flame.sql)
    for a response to survey [sid] inserted over connection [c], at server
    time [t]. Its subqueries run under the caller's row-level security: the
    [EXISTS] sees the surveys the caller may select, and the count sees the
    responses of [sid] the caller may select. *)
Definition flat_cave_insert_check (c : Pg.Conn) (t : Z) (db : Pg.DB) (sid : string) : bool :=
  existsb (fun s => String.eqb (DatabaseSurvey.id s) sid
                    && DatabaseSurvey.is_active s
                    && DatabaseSurvey.allow_public_access s
                    && match DatabaseSurvey.expires_at s with
                       | None => true
                       | Some e => Z.ltb t e
                       end
                    && match DatabaseSurvey.response_limit s with
                       | None => true
                       | Some l => Z.ltb (Z.of_nat (length (Pg.visible_responses c sid db))) l
                       end
                    && Pg.survey_select_policy (Pg.role c) s)
    (Pg.surveys db).

(** The [WITH CHECK (true)] of [simple_public_insert]
    (20250712080551_silent_canyon.sql) and [allow_public_insert]. *)
Definition simple_public_insert_check (t : Z) (db : Pg.DB) (sid : string) : bool :=
  true.

Definition inactive_row : DatabaseSurvey.t :=
  DatabaseSurvey.mk "s1" "p1" "Feedback" "" [] false true None None 0 0 (Some "u").

Definition owner_conn : Pg.Conn := Pg.mkConn (Pg.Authenticated "u") 200 "uuid" "pid".

Definition zero_limit_row : DatabaseSurvey.t :=
  DatabaseSurvey.mk "s1" "p1" "Feedback" "" [] true true (Some 0%Z) None 0 0 (Some "u").

Definition closing_row : DatabaseSurvey.t :=
  DatabaseSurvey.mk "s1" "p1" "Feedback" "" [] true true None (Some 200%Z) 0 0 (Some "u").

(** C2 (counterexample): on an inactive survey [checkSurveyLimits] answers
    [canSubmit = true] while the flat_cave insert policy rejects; on an
    expired survey it answers [canSubmit = false] while the later
    [simple_public_insert] policy admits; on an active public survey with
    limit 0, or at the very instant of its expiration, it answers
    [canSubmit = true] while the flat_cave policy rejects. *)
Lemma C2_client_and_policy_disagree :
  fst (checkSurveyLimits (Pg.backend owner_conn) false "s1" None
         (mkWorld (mkLocalStore [] []) (Pg.mkDB [inactive_row] []) 200))
  = Resolved (mkLimitCheck true None) /\
  flat_cave_insert_check owner_conn 200 (Pg.mkDB [inactive_row] []) "s1" = false /\
  fst (checkSurveyLimits (Pg.backend owner_conn) false "s1" None
         (mkWorld (mkLocalStore [] []) (Pg.mkDB [expired_public_row] []) 200))
  = Resolved (mkLimitCheck false (Some "Survey has expired")) /\
  simple_public_insert_check 200 (Pg.mkDB [expired_public_row] []) "s1" = true /\
  fst (checkSurveyLimits (Pg.backend owner_conn) false "s1" None
         (mkWorld (mkLocalStore [] []) (Pg.mkDB [zero_limit_row] []) 200))
  = Resolved (mkLimitCheck true None) /\
  flat_cave_insert_check owner_conn 200 (Pg.mkDB [zero_limit_row] []) "s1" = false /\
  fst (checkSurveyLimits (Pg.backend owner_conn) false "s1" None
         (mkWorld (mkLocalStore [] []) (Pg.mkDB [closing_row] []) 200))
  = Resolved (mkLimitCheck true None) /\
  flat_cave_insert_check owner_conn 200 (Pg.mkDB [closing_row] []) "s1" = false.
Proof. repeat split; reflexivity. Qed.

(** Settles a goal of boolean comparisons on [Z] by case analysis; [tac]
    rewrites what the comparisons hide. *)
Ltac zcmp_finish tac :=
  repeat (simpl; first
    [ progress tac
    | match goal with
      | |- context [Z.gtb ?a ?b] => rewrite (Z.gtb_ltb a b)
      | |- context [Z.geb ?a ?b] => rewrite (Z.geb_leb a b)
      | |- context [Z.ltb ?a ?b] => destruct (Z.ltb_spec a b)
      | |- context [Z.leb ?a ?b] => destruct (Z.leb_spec a b)
      | |- context [Z.eqb ?a ?b] => destruct (Z.eqb_spec a b)
      end ]);
  simpl; try (eexists; split; [reflexivity|]); simpl;
  first [reflexivity | exfalso; lia].

(** C2 (amended): over any connection, for a stored survey [S] (ids unique)
    that is active and public-access enabled, whose response limit is unset
    or positive and whose expiration is unset or not the present instant,
    [checkSurveyLimits S.id] answers [canSubmit] exactly as the flat_cave
    insert policy decides for that caller at that instant. *)
Theorem C2_limits_agree_on_active_public (c : Pg.Conn)
  (w : World Pg.DB) (S : DatabaseSurvey.t) (user : option User.t)
  (Huniq : NoDup (map DatabaseSurvey.id (Pg.surveys (remote w))))
  (HS : In S (Pg.surveys (remote w)))
  (Hpub : Pg.is_public S = true)
  (Hlim : match DatabaseSurvey.response_limit S with
          | Some l => (0 < l)%Z | None => True end)
  (Hexp : match DatabaseSurvey.expires_at S with
          | Some e => e <> clock w | None => True end) :
  exists lc,
    fst (checkSurveyLimits (Pg.backend c) false (DatabaseSurvey.id S) user w)
    = Resolved lc /\
    canSubmit lc = flat_cave_insert_check c (clock w) (remote w) (DatabaseSurvey.id S).
Proof.
  unfold flat_cave_insert_check.
  rewrite existsb_filter.
  erewrite (filter_unique_key DatabaseSurvey.id _ _ S Huniq HS).
  2:{ intros y _ Hy. repeat (apply andb_prop in Hy as [Hy _]).
      now apply String.eqb_eq in Hy. }
  unfold checkSurveyLimits, bind, query, now, ret; simpl.
  unfold Pg.pg_select_survey_limits, Pg.pg_count_responses.
  erewrite (filter_unique_key DatabaseSurvey.id _ _ S Huniq HS).
  2:{ intros y _ Hy. apply andb_prop in Hy as [_ Hy].
      now apply String.eqb_eq in Hy. }
  rewrite (select_policy_public _ _ Hpub), String.eqb_refl. simpl.
  rewrite andb_true_r.
  unfold Pg.is_public in Hpub. apply andb_prop in Hpub as [Ha Hp].
  rewrite Ha, Hp. simpl.
  destruct (DatabaseSurvey.expires_at S) as [e|];
    destruct (DatabaseSurvey.response_limit S) as [l|];
    zcmp_finish ltac:(fail).
Qed.

Definition public_row : DatabaseSurvey.t :=
  DatabaseSurvey.mk "s2" "p2" "Poll" "" [] true true (Some 1%Z) None 0 0 (Some "u").

Lemma C2_limits_agree_witness :
  exists lc,
    fst (checkSurveyLimits (Pg.backend owner_conn) false "s2" None
           (mkWorld (mkLocalStore [] []) (Pg.mkDB [public_row] []) 200))
    = Resolved lc /\
    canSubmit lc = flat_cave_insert_check owner_conn 200 (Pg.mkDB [public_row] []) "s2".
Proof.
  apply (C2_limits_agree_on_active_public owner_conn
           (mkWorld (mkLocalStore [] []) (Pg.mkDB [public_row] []) 200) public_row None);
    simpl; try reflexivity; try lia.
  - repeat constructor. simpl. tauto.
  - now left.
Defined.

(** ** C3: the answers of [checkSurveyLimits] *)

(** A backend whose response-count query fails (for example, a lost
    connection) while its other calls behave as [b]'s. *)
Definition with_count_error {St} (b : Backend St) (e : PgError) : Backend St :=
  mkBackend St (upsert_survey b) (select_surveys b) (select_survey_public b)
    (delete_surveys b) (insert_response b) (select_survey_owner b)
    (select_responses b) (select_survey_limits b) (fun _ _ => PgErr e).

Definition full_expired_row : DatabaseSurvey.t :=
  DatabaseSurvey.mk "s1" "p1" "Feedback" "" [] true true (Some 1%Z) (Some 100%Z) 0 0
    (Some "u").

Definition one_response : DatabaseResponse.t :=
  DatabaseResponse.mk "r1" "s1" [] 50 None None.

(** C3 (counterexample): a survey with limit 1 that has 1 response but has
    also expired is reported expired, not limit-reached; and when the count
    query fails the reason is ["Error checking response limit"], outside the
    three listed reasons. *)
Lemma C3_other_reasons :
  fst (checkSurveyLimits (Pg.backend owner_conn) false "s1" None
         (mkWorld (mkLocalStore [] []) (Pg.mkDB [full_expired_row] [one_response]) 200))
  = Resolved (mkLimitCheck false (Some "Survey has expired")) /\
  fst (checkSurveyLimits
         (with_count_error (Pg.backend owner_conn) (mkPgError "08006" "connection failure"))
         false "s2" None
         (mkWorld (mkLocalStore [] []) (Pg.mkDB [public_row] [one_response]) 200))
  = Resolved (mkLimitCheck false (Some "Error checking response limit")).
Proof. split; reflexivity. Qed.

(** The answers [checkSurveyLimits] can give. *)
Definition limit_answers : list LimitCheck :=
  [ mkLimitCheck true None;
    mkLimitCheck false (Some "Survey not found");
    mkLimitCheck false (Some "Survey has expired");
    mkLimitCheck false (Some "Error checking response limit");
    mkLimitCheck false (Some "Response limit reached") ].

Ltac split_matches :=
  repeat (simpl; match goal with
                 | |- context [match ?x with _ => _ end] => destruct x eqn:?
                 end).

(** C3 (amended): [checkSurveyLimits id] answers, in this order of priority:
    ["Survey not found"] when the survey lookup fails (a missing survey, or
    one the caller cannot read); ["Survey has expired"] when the current time
    is past the expiration; then, for a set limit [L] (any non-zero number,
    negative ones included: only a missing limit or 0 counts as unset), in
    remote mode ["Error checking response limit"] when the count query
    fails, and ["Response limit reached"] when the count it reports is
    non-zero and at least [L]; in local mode ["Response limit reached"] when
    the stored responses of the survey number at least [L]. In every other
    case it answers [canSubmit = true] with no reason. Every answer is one of
    these five. *)
Theorem C3_limit_answers {St} (be : Backend St) (sid : string)
  (user : option User.t) (w : World St) :
  (* remote mode *)
  (forall e, select_survey_limits be sid (remote w) = PgErr e ->
     fst (checkSurveyLimits be false sid user w)
     = Resolved (mkLimitCheck false (Some "Survey not found"))) /\
  (forall lim exp, select_survey_limits be sid (remote w) = PgOk (lim, exp) ->
     is_expired (clock w) exp = true ->
     fst (checkSurveyLimits be false sid user w)
     = Resolved (mkLimitCheck false (Some "Survey has expired"))) /\
  (forall lim exp, select_survey_limits be sid (remote w) = PgOk (lim, exp) ->
     is_expired (clock w) exp = false -> (lim = None \/ lim = Some 0%Z) ->
     fst (checkSurveyLimits be false sid user w) = Resolved (mkLimitCheck true None)) /\
  (forall l exp, select_survey_limits be sid (remote w) = PgOk (Some l, exp) ->
     is_expired (clock w) exp = false -> l <> 0%Z ->
     (forall e, count_responses be sid (remote w) = PgErr e ->
        fst (checkSurveyLimits be false sid user w)
        = Resolved (mkLimitCheck false (Some "Error checking response limit"))) /\
     (forall n, count_responses be sid (remote w) = PgOk n -> n <> 0%Z -> (l <= n)%Z ->
        fst (checkSurveyLimits be false sid user w)
        = Resolved (mkLimitCheck false (Some "Response limit reached"))) /\
     (forall n, count_responses be sid (remote w) = PgOk n -> (n = 0 \/ n < l)%Z ->
        fst (checkSurveyLimits be false sid user w) = Resolved (mkLimitCheck true None))) /\
  (* local mode *)
  (find (fun s => String.eqb (Survey.id s) sid) (ls_surveys (local w)) = None ->
     fst (checkSurveyLimits be true sid user w)
     = Resolved (mkLimitCheck false (Some "Survey not found"))) /\
  (forall S, find (fun s => String.eqb (Survey.id s) sid) (ls_surveys (local w)) = Some S ->
     (is_expired (clock w) (Survey.expiresAt S) = true ->
        fst (checkSurveyLimits be true sid user w)
        = Resolved (mkLimitCheck false (Some "Survey has expired"))) /\
     (is_expired (clock w) (Survey.expiresAt S) = false ->
        (Survey.responseLimit S = None \/ Survey.responseLimit S = Some 0%Z) ->
        fst (checkSurveyLimits be true sid user w) = Resolved (mkLimitCheck true None)) /\
     (forall l, is_expired (clock w) (Survey.expiresAt S) = false ->
        Survey.responseLimit S = Some l -> l <> 0%Z ->
        ((l <= Z.of_nat (length (storage_getResponsesForSurvey sid (local w))))%Z ->
           fst (checkSurveyLimits be true sid user w)
           = Resolved (mkLimitCheck false (Some "Response limit reached"))) /\
        ((Z.of_nat (length (storage_getResponsesForSurvey sid (local w))) < l)%Z ->
           fst (checkSurveyLimits be true sid user w)
           = Resolved (mkLimitCheck true None)))) /\
  (* every answer *)
  (forall useFallback lc,
     fst (checkSurveyLimits be useFallback sid user w) = Resolved lc ->
     In lc limit_answers).
Proof.
  unfold checkSurveyLimits, bind, query, now, local_read, ret.
  refine (conj _ (conj _ (conj _ (conj _ (conj _ (conj _ _)))))).
  - intros e He. simpl. now rewrite He.
  - intros lim exp He Hx. simpl. now rewrite He, Hx.
  - intros lim exp He Hx [-> | ->]; simpl; rewrite He; simpl; now rewrite Hx.
  - intros l exp He Hx Hl. simpl. rewrite He; simpl. rewrite Hx; simpl.
    rewrite (proj2 (Z.eqb_neq l 0)) by exact Hl; simpl.
    split; [|split].
    + intros e Hc. now rewrite Hc.
    + intros n Hc Hn Hln. rewrite Hc.
      rewrite (proj2 (Z.eqb_neq n 0)) by exact Hn.
      assert (Hge : Z.geb n l = true) by (rewrite Z.geb_leb; apply Z.leb_le; lia).
      simpl. now rewrite Hge.
    + intros n Hc Hn. rewrite Hc.
      destruct (Z.eqb_spec n 0) as [->|Hn0]; [reflexivity|].
      assert (Hge : Z.geb n l = false) by (rewrite Z.geb_leb; apply Z.leb_gt; lia).
      simpl. now rewrite Hge.
  - intros Hf. simpl. now rewrite Hf.
  - intros S Hf. split; [|split].
    + intros Hx. simpl. now rewrite Hf, Hx.
    + intros Hx [Hl | Hl]; simpl; rewrite Hf; simpl; rewrite Hx, Hl; reflexivity.
    + intros l Hx Hl Hl0. simpl. rewrite Hf; simpl. rewrite Hx, Hl; simpl.
      rewrite (proj2 (Z.eqb_neq l 0)) by exact Hl0; simpl. split.
      * intros Hn.
        assert (Hge : Z.geb (Z.of_nat (length (storage_getResponsesForSurvey sid (local w)))) l
                      = true) by (rewrite Z.geb_leb; apply Z.leb_le; lia).
        now rewrite Hge.
      * intros Hn.
        assert (Hge : Z.geb (Z.of_nat (length (storage_getResponsesForSurvey sid (local w)))) l
                      = false) by (rewrite Z.geb_leb; apply Z.leb_gt; lia).
        now rewrite Hge.
  - intros useFallback lc. destruct useFallback; split_matches;
      intros H; inversion H; subst; simpl; tauto.
Qed.

(** ** C4: [getSurveys] under a user context *)

Lemma user_is_some (o : option string) (u : string) :
  Pg.user_is o u = true -> o = Some u.
Proof.
  destruct o as [v|]; simpl; [|discriminate].
  intros H. apply String.eqb_eq in H. now subst.
Qed.

(** Removes from the backend every non-public survey owned by [B]. *)
Definition without_private_of (B : string) (db : Pg.DB) : Pg.DB :=
  Pg.mkDB (filter (fun s => negb (Pg.user_is (DatabaseSurvey.user_id s) B
                                  && negb (Pg.is_public s)))
             (Pg.surveys db))
          (Pg.responses db).

(** C4: in remote mode, whatever the connection, [getSurveys] under user
    [A]'s context returns only stored surveys whose owner is [A]; and for any
    other user [B], removing (or adding) [B]'s non-public surveys does not
    change [A]'s result. *)
Theorem C4_getSurveys_owner_isolation (c : Pg.Conn) (A : User.t) (w : World Pg.DB) :
  (exists rows,
     fst (getSurveys (Pg.backend c) false (Some A) w)
     = Resolved (map transformDatabaseSurvey rows) /\
     forall r, In r rows ->
       In r (Pg.surveys (remote w)) /\ DatabaseSurvey.user_id r = Some (User.id A)) /\
  (forall B, B <> User.id A ->
     fst (getSurveys (Pg.backend c) false (Some A) w)
     = fst (getSurveys (Pg.backend c) false (Some A)
              (mkWorld (local w) (without_private_of B (remote w)) (clock w)))).
Proof.
  unfold getSurveys, bind, query, ret; simpl. unfold Pg.pg_select_surveys. split.
  - eexists; split; [reflexivity|].
    intros r Hr. apply (Permutation_in _ (sort_desc_perm _ _)) in Hr.
    apply filter_In in Hr as [Hin Hp]. apply andb_prop in Hp as [_ Hp].
    split; [exact Hin|]. now apply user_is_some.
  - intros B HB. simpl. f_equal. f_equal. f_equal.
    symmetry. apply filter_filter_weaker.
    intros y Hy. apply andb_prop in Hy as [_ Hy].
    apply user_is_some in Hy. rewrite Hy. simpl.
    destruct (String.eqb_spec (User.id A) B); [congruence|reflexivity].
Qed.

(** ** C5: [saveSurvey] *)

Lemma get_missing (o : Payload) (k : string) :
  ~ In k (map fst o) -> get o k = JUndefined.
Proof.
  induction o as [|[k' v] o IH]; simpl; intros H; [reflexivity|].
  destruct (String.eqb_spec k k'); [subst; tauto|]. apply IH. tauto.
Qed.

Lemma removeUndefined_keys (o : Payload) (k : string) :
  In k (map fst (removeUndefined o)) -> In k (map fst o).
Proof.
  induction o as [|[k' v] o IH]; simpl; [tauto|].
  destruct (is_undefined v); simpl; intuition.
Qed.

(** Removing the [undefined] entries of an object changes none of its
    properties ([obj[k]] is [undefined] for a missing key). *)
Lemma get_removeUndefined (o : Payload) (k : string) :
  NoDup (map fst o) -> get (removeUndefined o) k = get o k.
Proof.
  induction o as [|[k' v] o IH]; simpl; intros Hnd; [reflexivity|].
  inversion Hnd as [|? ? Hnotin Hnd']; subst.
  destruct (is_undefined v) eqn:Hv; simpl.
  - destruct (String.eqb_spec k k').
    + subst. destruct v; try discriminate.
      apply get_missing. intros H. apply Hnotin. now apply removeUndefined_keys.
    + now apply IH.
  - destruct (String.eqb k k'); [reflexivity|]. now apply IH.
Qed.

Lemma removeUndefined_defined (o : Payload) :
  Forall (fun kv => snd kv <> JUndefined) (removeUndefined o).
Proof.
  induction o as [|[k v] o IH]; simpl; [constructor|].
  destruct v; simpl; try constructor; simpl; auto; discriminate.
Qed.

Lemma surveyData_keys (s : Survey.t) (u : User.t) :
  NoDup (map fst (transformAppSurvey s ++ [("user_id", JStr (User.id u))])%list).
Proof. simpl. repeat constructor; simpl; intuition discriminate. Qed.

Definition msg_duplicate := "A survey with this ID already exists".
Definition msg_permission := "Permission denied. Please ensure you are signed in.".
Definition msg_rls := "Access denied. Please sign in to save surveys.".

(** C5: in remote mode [saveSurvey] without a user context rejects with the
    authorization error and leaves the world (the backend included)
    untouched; with a user context (and a title) it sends the survey's
    properties with the [undefined] ones removed and [user_id] set to the
    caller's id, and turns a backend error into: the duplicate-id message
    (code 23505), one of two permission messages (code 42501, or a
    row-level-security message), or ["Database error: " ++ message] for
    anything else, these being pairwise distinct; in local mode it resolves
    to the survey, for any user context, after upserting it locally. *)
Theorem C5_saveSurvey_authorization_and_errors {St} (be : Backend St)
  (w : World St) (s : Survey.t) :
  saveSurvey be false s None w
  = (Rejected "Authentication required to save surveys", w) /\
  (forall u, Survey.title s <> "" ->
     saveSurvey be false s (Some u) w
     = let (r, st') := upsert_survey be (surveyData s u) (remote w) in
       (match r with
        | PgErr e => Rejected (saveSurveyError e)
        | PgOk d => Resolved (transformDatabaseSurvey d)
        end, mkWorld (local w) st' (clock w))) /\
  (forall u,
     Forall (fun kv => snd kv <> JUndefined) (surveyData s u) /\
     get (surveyData s u) "user_id" = JStr (User.id u) /\
     (forall k, k <> "user_id" -> get (surveyData s u) k = get (transformAppSurvey s) k)) /\
  (forall e, code e = "23505" -> saveSurveyError e = msg_duplicate) /\
  (forall e, code e = "42501" -> saveSurveyError e = msg_permission) /\
  (forall e, code e <> "23505" -> code e <> "42501" ->
     includes "violates row-level security" (message e) = true ->
     saveSurveyError e = msg_rls) /\
  (forall e, code e <> "23505" -> code e <> "42501" ->
     includes "violates row-level security" (message e) = false ->
     saveSurveyError e = "Database error: " ++ message e) /\
  (msg_duplicate <> msg_permission /\ msg_duplicate <> msg_rls /\
   msg_permission <> msg_rls /\
   forall m, ~ In ("Database error: " ++ m) [msg_duplicate; msg_permission; msg_rls]) /\
  (forall user, saveSurvey be true s user w
     = (Resolved s, mkWorld (storage_saveSurvey s (local w)) (remote w) (clock w))).
Proof.
  assert (Hget : forall u k, get (surveyData s u) k
                             = get (transformAppSurvey s ++ [("user_id", JStr (User.id u))])%list k)
    by (intros; apply get_removeUndefined, surveyData_keys).
  refine (conj _ (conj _ (conj _ (conj _ (conj _ (conj _ (conj _ (conj _ _)))))))).
  - reflexivity.
  - intros u Ht. unfold saveSurvey. rewrite !Hget. simpl.
    destruct (String.eqb_spec (Survey.title s) ""); [contradiction|]. simpl.
    unfold bind, call.
    destruct (upsert_survey be (surveyData s u) (remote w)) as [[d|e] st']; reflexivity.
  - intros u. split; [apply removeUndefined_defined|]. split.
    + rewrite Hget. reflexivity.
    + intros k Hk. rewrite Hget. simpl.
      destruct (String.eqb k "id"); [reflexivity|].
      destruct (String.eqb k "public_id"); [reflexivity|].
      destruct (String.eqb k "title"); [reflexivity|].
      destruct (String.eqb k "description"); [reflexivity|].
      destruct (String.eqb k "questions"); [reflexivity|].
      destruct (String.eqb k "is_active"); [reflexivity|].
      destruct (String.eqb k "allow_public_access"); [reflexivity|].
      destruct (String.eqb k "response_limit"); [reflexivity|].
      destruct (String.eqb k "expires_at"); [reflexivity|].
      destruct (String.eqb_spec k "user_id"); [contradiction|reflexivity].
  - intros e H. unfold saveSurveyError. now rewrite H.
  - intros e H. unfold saveSurveyError. now rewrite H.
  - intros e H1 H2 H3. unfold saveSurveyError.
    rewrite (proj2 (String.eqb_neq _ _) H1), (proj2 (String.eqb_neq _ _) H2), H3.
    reflexivity.
  - intros e H1 H2 H3. unfold saveSurveyError.
    rewrite (proj2 (String.eqb_neq _ _) H1), (proj2 (String.eqb_neq _ _) H2), H3.
    reflexivity.
  - unfold msg_duplicate, msg_permission, msg_rls.
    repeat split; try discriminate. simpl. intuition discriminate.
  - intros user. reflexivity.
Qed.

(** ** C6: [saveResponse] *)

(** A backend whose response insert fails with [e], leaving its state as is,
    while its other calls behave as [b]'s. *)
Definition with_insert_error {St} (b : Backend St) (e : PgError) : Backend St :=
  mkBackend St (upsert_survey b) (select_surveys b) (select_survey_public b)
    (delete_surveys b) (fun _ st => (PgErr e, st)) (select_survey_owner b)
    (select_responses b) (select_survey_limits b) (count_responses b).

Definition recursion_error : PgError :=
  mkPgError "42P17" "infinite recursion detected in policy for relation responses".

Definition sample_response : Response.t := Response.mk "r9" "s1" [] 150.

Definition msg_fk := "Survey not found or no longer accepting responses".
Definition msg_inactive := "Permission denied. Survey may be inactive.".
Definition msg_config := "Database configuration error. Please contact support.".
Definition msg_expired := "Unable to submit response. Survey may be inactive or expired.".

(** C6 (counterexample): a policy-recursion error is reported as the fixed
    configuration message, which carries no detail of the backend error and
    is none of the three classes the claim lists; an anonymous submission to
    an active public survey is refused by the backend with the row-level
    security error [42501] ([INSERT ... RETURNING] needs a select policy on
    [responses], which [anon] lacks), reported as the permission message, not
    as the inactive-or-expired one; and a signed-in submission to an
    inactive survey is accepted (no eligibility check remains on insert). *)
Lemma C6_unlisted_error_classes :
  fst (saveResponse (with_insert_error (Pg.backend owner_conn) recursion_error)
         false sample_response
         (mkWorld (mkLocalStore [] []) (Pg.mkDB [inactive_row] []) 200))
  = Rejected msg_config /\
  fst (saveResponse (Pg.backend (Pg.mkConn Pg.Anon 200 "uuid" "pid")) false
         (Response.mk "r9" "s2" [] 150)
         (mkWorld (mkLocalStore [] []) (Pg.mkDB [public_row] []) 200))
  = Rejected msg_inactive /\
  fst (saveResponse (Pg.backend owner_conn) false sample_response
         (mkWorld (mkLocalStore [] []) (Pg.mkDB [inactive_row] []) 200))
  = Resolved (transformDatabaseResponse
                (DatabaseResponse.mk "r9" "s1" [] 150 None (Some "u"))).
Proof. repeat split; reflexivity. Qed.

(** C6 (amended): [saveResponse] takes no user context. In remote mode it
    inserts the response's row and, on success, resolves to the stored row;
    a backend error is reported by the first matching case of: code [23503]
    (foreign key), code [42501] (permission), a message containing
    ["infinite recursion"], a message containing
    ["violates row-level security"], and otherwise
    ["Database error: " ++ message]; the four fixed messages are pairwise
    distinct and differ from every generic one. In local mode it appends the
    response and resolves to it. *)
Theorem C6_saveResponse_error_mapping {St} (be : Backend St) (r : Response.t)
  (w : World St) :
  (forall d st', insert_response be (responseData r) (remote w) = (PgOk d, st') ->
     saveResponse be false r w
     = (Resolved (transformDatabaseResponse d), mkWorld (local w) st' (clock w))) /\
  (forall e st', insert_response be (responseData r) (remote w) = (PgErr e, st') ->
     saveResponse be false r w
     = (Rejected (saveResponseError e), mkWorld (local w) st' (clock w))) /\
  (forall e, code e = "23503" -> saveResponseError e = msg_fk) /\
  (forall e, code e <> "23503" -> code e = "42501" -> saveResponseError e = msg_inactive) /\
  (forall e, code e <> "23503" -> code e <> "42501" ->
     includes "infinite recursion" (message e) = true ->
     saveResponseError e = msg_config) /\
  (forall e, code e <> "23503" -> code e <> "42501" ->
     includes "infinite recursion" (message e) = false ->
     includes "violates row-level security" (message e) = true ->
     saveResponseError e = msg_expired) /\
  (forall e, code e <> "23503" -> code e <> "42501" ->
     includes "infinite recursion" (message e) = false ->
     includes "violates row-level security" (message e) = false ->
     saveResponseError e = "Database error: " ++ message e) /\
  NoDup [msg_fk; msg_inactive; msg_config; msg_expired] /\
  (forall m, ~ In ("Database error: " ++ m) [msg_fk; msg_inactive; msg_config; msg_expired]) /\
  saveResponse be true r w
  = (Resolved r, mkWorld (storage_saveResponse r (local w)) (remote w) (clock w)).
Proof.
  unfold saveResponse, saveResponseError, bind, call, throw, ret.
  refine (conj _ (conj _ (conj _ (conj _ (conj _ (conj _ (conj _ (conj _ (conj _ _))))))))).
  - intros d st' H. now rewrite H.
  - intros e st' H. now rewrite H.
  - intros e H. now rewrite H.
  - intros e H1 H2. now rewrite (proj2 (String.eqb_neq _ _) H1), H2.
  - intros e H1 H2 H3.
    now rewrite (proj2 (String.eqb_neq _ _) H1), (proj2 (String.eqb_neq _ _) H2), H3.
  - intros e H1 H2 H3 H4.
    now rewrite (proj2 (String.eqb_neq _ _) H1), (proj2 (String.eqb_neq _ _) H2), H3, H4.
  - intros e H1 H2 H3 H4.
    now rewrite (proj2 (String.eqb_neq _ _) H1), (proj2 (String.eqb_neq _ _) H2), H3, H4.
  - unfold msg_fk, msg_inactive, msg_config, msg_expired.
    repeat constructor; simpl; intuition discriminate.
  - intros m. unfold msg_fk, msg_inactive, msg_config, msg_expired.
    simpl. intuition discriminate.
  - reflexivity.
Qed.

(** ** C7: [getResponsesForSurvey] *)

(** C7 (counterexample): in local mode the user context is ignored: a
    signed-in user asking for the responses of a survey that does not exist
    gets an empty list, not an access-denied error. *)
Lemma C7_local_mode_no_owner_check :
  getResponsesForSurvey (Pg.backend owner_conn) true "missing"
    (Some (User.mk "u"))
    (mkWorld (mkLocalStore [] []) (Pg.mkDB [] []) 200)
  = (Resolved [], mkWorld (mkLocalStore [] []) (Pg.mkDB [] []) 200).
Proof. reflexivity. Qed.

Lemma user_is_neq (o : option string) (u : string) :
  o <> Some u -> Pg.user_is o u = false.
Proof.
  destruct o as [v|]; simpl; intros H; [|reflexivity].
  destruct (String.eqb_spec v u); [congruence|reflexivity].
Qed.

(** C7 (amended): in remote mode, for a user [u] signed in to the backend
    (survey ids being unique), [getResponsesForSurvey sid (Some u)] rejects
    with ["Survey not found or access denied"] when no survey [sid] owned by
    [u] exists; when one exists it resolves to every stored response of
    [sid], ordered by submission time, descending. Neither call changes the
    world. In local mode, whatever the backend and the user context, the
    call resolves to the responses of [sid] in the local store and changes
    nothing: no ownership check is made. *)
Theorem C7_getResponsesForSurvey_owner_check (c : Pg.Conn) (u : User.t)
  (sid : string) (w : World Pg.DB)
  (Hrole : Pg.role c = Pg.Authenticated (User.id u))
  (Huniq : NoDup (map DatabaseSurvey.id (Pg.surveys (remote w)))) :
  (forall S, In S (Pg.surveys (remote w)) -> DatabaseSurvey.id S = sid ->
     DatabaseSurvey.user_id S = Some (User.id u) ->
     exists rows,
       getResponsesForSurvey (Pg.backend c) false sid (Some u) w
       = (Resolved (map transformDatabaseResponse rows), w) /\
       Permutation rows
         (filter (fun r => String.eqb (DatabaseResponse.survey_id r) sid)
            (Pg.responses (remote w))) /\
       Sorted (desc DatabaseResponse.submitted_at) rows) /\
  ((forall S, In S (Pg.surveys (remote w)) -> DatabaseSurvey.id S = sid ->
      DatabaseSurvey.user_id S <> Some (User.id u)) ->
   getResponsesForSurvey (Pg.backend c) false sid (Some u) w
   = (Rejected "Survey not found or access denied", w)) /\
  (forall (be : Backend Pg.DB) (user : option User.t),
     getResponsesForSurvey be true sid user w
     = (Resolved (storage_getResponsesForSurvey sid (local w)), w)).
Proof.
  refine (conj _ (conj _ _)).
  - intros S HS Hid Hown.
    unfold getResponsesForSurvey, bind, query, ret, throw; simpl.
    unfold Pg.pg_select_survey_owner.
    rewrite (filter_unique_key DatabaseSurvey.id _ _ S Huniq HS).
    2:{ intros y _ Hy. apply andb_prop in Hy as [Hy _].
        apply andb_prop in Hy as [_ Hy]. apply String.eqb_eq in Hy. congruence. }
    rewrite Hrole. simpl. rewrite Hown, Hid, String.eqb_refl. simpl.
    unfold Pg.pg_select_responses.
    unfold Pg.visible_responses. rewrite ?Hrole. rewrite String.eqb_refl. simpl.
    eexists; split; [reflexivity|]. split.
    + apply sort_desc_perm.
    + apply sort_desc_sorted.
  - intros Hnone. unfold getResponsesForSurvey, bind, query, ret, throw; simpl.
    unfold Pg.pg_select_survey_owner.
    rewrite filter_none; [reflexivity|].
    intros y Hy. destruct (String.eqb_spec (DatabaseSurvey.id y) sid) as [E|E].
    + rewrite (user_is_neq _ _ (Hnone y Hy E)). apply andb_false_r.
    + now rewrite andb_false_r.
  - intros be user. reflexivity.
Qed.

Definition owned_row : DatabaseSurvey.t :=
  DatabaseSurvey.mk "s1" "p1" "Feedback" "" [] false false None None 0 0 (Some "u").

Definition early_response : DatabaseResponse.t :=
  DatabaseResponse.mk "r1" "s1" [] 50 None None.

Definition late_response : DatabaseResponse.t :=
  DatabaseResponse.mk "r2" "s1" [] 80 None None.

Lemma C7_owner_check_witness :
  exists rows,
    getResponsesForSurvey (Pg.backend owner_conn) false "s1" (Some (User.mk "u"))
      (mkWorld (mkLocalStore [] [])
         (Pg.mkDB [owned_row] [early_response; late_response]) 200)
    = (Resolved (map transformDatabaseResponse rows),
       mkWorld (mkLocalStore [] [])
         (Pg.mkDB [owned_row] [early_response; late_response]) 200) /\
    Permutation rows [early_response; late_response] /\
    Sorted (desc DatabaseResponse.submitted_at) rows.
Proof.
  apply (proj1 (C7_getResponsesForSurvey_owner_check owner_conn (User.mk "u") "s1"
                  (mkWorld (mkLocalStore [] [])
                     (Pg.mkDB [owned_row] [early_response; late_response]) 200)
                  eq_refl ltac:(repeat constructor; simpl; tauto))
           owned_row (or_introl eq_refl) eq_refl eq_refl).
Defined.

(** ** C8: saving a survey, then listing the owner's surveys *)

(** A stored survey of user [u] with a response limit of 10. *)
Definition limited_row : DatabaseSurvey.t :=
  DatabaseSurvey.mk "s1" "p1" "Feedback" "" [] true true (Some 10%Z) None 5 5
    (Some "u").

(** The same survey after its owner cleared the limit in the builder
    ([responseLimit: responseLimit || undefined]). *)
Definition cleared_survey : Survey.t :=
  Survey.mk "s1" (Some "p1") "Feedback" "" [] 5 true (Some true) None None.

Definition limited_world : World Pg.DB :=
  mkWorld (mkLocalStore [] []) (Pg.mkDB [limited_row] []) 200.

(** C8 (failing input): saving [cleared_survey] as its owner succeeds, but
    the undefined [response_limit] is stripped from the payload, so the
    upsert keeps the stored column; [getSurveys] then lists the survey with
    its old limit 10, and no survey of the result has the saved
    [responseLimit]. *)
Theorem C8_cleared_limit_not_persisted :
  let u := User.mk "u" in
  let (r1, w1) := saveSurvey (Pg.backend owner_conn) false cleared_survey (Some u)
                    limited_world in
  (exists S', r1 = Resolved S') /\
  get (surveyData cleared_survey u) "response_limit" = JUndefined /\
  (exists l, fst (getSurveys (Pg.backend owner_conn) false (Some u) w1) = Resolved l /\
     l <> [] /\
     forall S', In S' l ->
       Survey.id S' = Survey.id cleared_survey /\
       Survey.responseLimit S' = Some 10%Z /\
       Survey.responseLimit cleared_survey = None).
Proof.
  vm_compute. split; [eexists; reflexivity|]. split; [reflexivity|].
  eexists; split; [reflexivity|]. split; [discriminate|].
  intros S' [<-|[]]. repeat split.
Qed.

(** ** C9: deleting a survey twice *)

Lemma existsb_false_filtered {A} (P Q : A -> bool) (l : list A) :
  (forall y, Q y = true -> P y = true) ->
  existsb Q (filter (fun y => negb (P y)) l) = false.
Proof.
  intros H. induction l as [|a l IH]; simpl; [reflexivity|].
  destruct (P a) eqn:Pa; simpl; [exact IH|].
  destruct (Q a) eqn:Qa; [rewrite (H a Qa) in Pa; discriminate|exact IH].
Qed.

Lemma storage_deleteSurvey_idem (sid : string) (ls : LocalStore) :
  storage_deleteSurvey sid (storage_deleteSurvey sid ls) = storage_deleteSurvey sid ls.
Proof. unfold storage_deleteSurvey; simpl. now rewrite !filter_idem. Qed.

(** C9: in either mode, for any connection, survey id and user context,
    [deleteSurvey] resolves, and a second call with the same arguments
    resolves too and leaves the world as the first call left it. *)
Theorem C9_deleteSurvey_idempotent (c : Pg.Conn) (useFallback : bool)
  (sid : string) (user : option User.t) (w : World Pg.DB) :
  let (r1, w1) := deleteSurvey (Pg.backend c) useFallback sid user w in
  r1 = Resolved tt /\
  deleteSurvey (Pg.backend c) useFallback sid user w1 = (Resolved tt, w1).
Proof.
  unfold deleteSurvey, bind, call, local_write, ret.
  destruct useFallback; simpl.
  - split; [reflexivity|]. now rewrite storage_deleteSurvey_idem.
  - split; [reflexivity|]. unfold Pg.pg_delete_surveys; simpl.
    rewrite filter_idem. f_equal. f_equal. f_equal.
    apply filter_all. intros r _.
    rewrite (existsb_false_filtered (Pg.deleted c sid (option_map User.id user))).
    + reflexivity.
    + intros y Hy. now apply andb_prop in Hy as [Hy _].
Qed.

(** ** C10: [checkSurveyLimits] never rejects *)

(** C10: for any backend (its lookup and count queries failing or not), in
    either mode, [checkSurveyLimits] resolves to a [{ canSubmit, reason }]
    value and leaves the world unchanged; a failed lookup answers
    [canSubmit = false] with ["Survey not found"], and a failed count (for an
    unexpired survey with a non-zero limit) answers [canSubmit = false] with
    ["Error checking response limit"]. *)
Theorem C10_checkSurveyLimits_never_rejects {St} (be : Backend St)
  (useFallback : bool) (sid : string) (user : option User.t) (w : World St) :
  (exists lc, checkSurveyLimits be useFallback sid user w = (Resolved lc, w)) /\
  (forall e, select_survey_limits be sid (remote w) = PgErr e ->
     checkSurveyLimits be false sid user w
     = (Resolved (mkLimitCheck false (Some "Survey not found")), w)) /\
  (forall l exp e, select_survey_limits be sid (remote w) = PgOk (Some l, exp) ->
     is_expired (clock w) exp = false -> l <> 0%Z ->
     count_responses be sid (remote w) = PgErr e ->
     checkSurveyLimits be false sid user w
     = (Resolved (mkLimitCheck false (Some "Error checking response limit")), w)).
Proof.
  unfold checkSurveyLimits, bind, query, now, local_read, ret.
  refine (conj _ (conj _ _)).
  - destruct useFallback; split_matches; eexists; reflexivity.
  - intros e He. simpl. now rewrite He.
  - intros l exp e He Hx Hl Hc. simpl. rewrite He; simpl. rewrite Hx; simpl.
    rewrite (proj2 (Z.eqb_neq l 0) Hl); simpl. now rewrite Hc.
Qed.

(** * Further properties of the facade over the backend *)

Lemma get_surveyData (s : Survey.t) (u : User.t) (k : string) :
  get (surveyData s u) k
  = get (transformAppSurvey s ++ [("user_id", JStr (User.id u))])%list k.
Proof. apply get_removeUndefined, surveyData_keys. Qed.

Lemma existsb_none {A} (P : A -> bool) (l : list A) :
  (forall y, In y l -> P y = false) -> existsb P l = false.
Proof.
  induction l as [|a l IH]; simpl; intros H; [reflexivity|].
  rewrite (H a (or_introl eq_refl)). apply IH. intros y Hy. apply H. now right.
Qed.

Lemma find_absent_key (x : string) (l : list DatabaseSurvey.t) :
  ~ In x (map DatabaseSurvey.id l) ->
  find (fun s => String.eqb (DatabaseSurvey.id s) x) l = None.
Proof.
  induction l as [|a l IH]; simpl; intros H; [reflexivity|].
  destruct (String.eqb_spec (DatabaseSurvey.id a) x); [tauto|]. apply IH. tauto.
Qed.

Lemma find_unique_key (x : string) (l : list DatabaseSurvey.t) (R : DatabaseSurvey.t) :
  NoDup (map DatabaseSurvey.id l) -> In R l -> DatabaseSurvey.id R = x ->
  find (fun s => String.eqb (DatabaseSurvey.id s) x) l = Some R.
Proof.
  induction l as [|a l IH]; simpl; intros Hnd Hin Hid; [contradiction|].
  inversion Hnd as [|? ? Hnotin Hnd']; subst.
  destruct Hin as [<-|Hin].
  - now rewrite String.eqb_refl.
  - destruct (String.eqb_spec (DatabaseSurvey.id a) (DatabaseSurvey.id R)) as [E|E].
    + exfalso. apply Hnotin. rewrite E. now apply in_map.
    + now apply IH.
Qed.

(** The row an [INSERT] of [saveSurvey]'s payload proposes, for a survey
    whose optional [publicId] and [allowPublicAccess] are set. *)
Lemma proposed_surveyData (c : Pg.Conn) (s : Survey.t) (u : User.t) (p : string) (b : bool) :
  Survey.publicId s = Some p -> Survey.allowPublicAccess s = Some b ->
  Pg.proposed_row c (surveyData s u)
  = DatabaseSurvey.mk (Survey.id s) p (Survey.title s) (Survey.description s)
      (Survey.questions s) (Survey.isActive s) b (Survey.responseLimit s)
      (Survey.expiresAt s) (Pg.server_now c) (Pg.server_now c)
      (match Pg.auth_uid (Pg.role c) with Some v => Some v | None => Some (User.id u) end).
Proof.
  intros Hp Hb. unfold Pg.proposed_row, Pg.col_str, Pg.col_bool.
  rewrite !get_surveyData. simpl. rewrite Hp, Hb.
  destruct (Survey.responseLimit s), (Survey.expiresAt s); reflexivity.
Qed.

(** The survey as [getSurveys] lists it after an insert at server time [t]. *)
Definition stored_as (s : Survey.t) (t : Z) : Survey.t :=
  Survey.mk (Survey.id s) (Survey.publicId s) (Survey.title s) (Survey.description s)
    (Survey.questions s) t (Survey.isActive s) (Survey.allowPublicAccess s)
    (Survey.responseLimit s) (Survey.expiresAt s).

(** [saveSurvey] (remote mode, with a user) rejects with
    ["Survey title and questions are required"], before calling the
    backend, exactly when the title is empty: the [questions] array is
    always truthy, even when empty. *)
Theorem saveSurvey_required_fields {St} (be : Backend St) (s : Survey.t) (u : User.t)
  (w : World St) :
  fst (saveSurvey be false s (Some u) w) = Rejected "Survey title and questions are required"
  <-> Survey.title s = "".
Proof.
  unfold saveSurvey, bind, call, throw, ret. rewrite !get_surveyData. simpl.
  destruct (String.eqb_spec (Survey.title s) "") as [E|E]; simpl.
  - tauto.
  - split; [|tauto]. intros H.
    destruct (upsert_survey be (surveyData s u) (remote w)) as [[d|e] st']; simpl in H;
      [discriminate|].
    injection H as H. revert H. unfold saveSurveyError.
    destruct (String.eqb (code e) "23505"); [discriminate|].
    destruct (String.eqb (code e) "42501"); [discriminate|].
    destruct (includes "violates row-level security" (message e)); discriminate.
Qed.

(** A signed-in user saving a new survey (an id and a public id no stored
    survey has; the builder always sets [publicId] and [allowPublicAccess])
    gets back the survey with its creation time set by the server, and the
    user's [getSurveys] then lists it so. *)
Theorem saveSurvey_insert_round_trip (c : Pg.Conn) (u : User.t) (S : Survey.t)
  (w : World Pg.DB) (p : string) (b : bool)
  (Hrole : Pg.role c = Pg.Authenticated (User.id u))
  (Hp : Survey.publicId S = Some p) (Hb : Survey.allowPublicAccess S = Some b)
  (Ht : Survey.title S <> "")
  (Hid : ~ In (Survey.id S) (map DatabaseSurvey.id (Pg.surveys (remote w))))
  (Hpid : ~ In p (map DatabaseSurvey.public_id (Pg.surveys (remote w)))) :
  let (r, w1) := saveSurvey (Pg.backend c) false S (Some u) w in
  r = Resolved (stored_as S (Pg.server_now c)) /\
  exists l, fst (getSurveys (Pg.backend c) false (Some u) w1) = Resolved l /\
            In (stored_as S (Pg.server_now c)) l.
Proof.
  unfold saveSurvey, bind, call, throw, ret. rewrite !get_surveyData. simpl.
  rewrite (proj2 (String.eqb_neq _ _) Ht). simpl.
  unfold Pg.pg_upsert_survey. rewrite (proposed_surveyData c S u p b Hp Hb), Hrole.
  simpl. rewrite (proj2 (String.eqb_neq _ _) Ht), String.eqb_refl. simpl.
  rewrite (find_absent_key _ _ Hid).
  unfold Pg.public_id_taken. simpl.
  rewrite existsb_none.
  2:{ intros y Hy. destruct (String.eqb_spec (DatabaseSurvey.public_id y) p) as [E|E].
      - exfalso. apply Hpid. rewrite <- E. now apply in_map.
      - apply andb_false_r. }
  simpl.
  assert (HS : transformDatabaseSurvey
                 (DatabaseSurvey.mk (Survey.id S) p (Survey.title S) (Survey.description S)
                    (Survey.questions S) (Survey.isActive S) b (Survey.responseLimit S)
                    (Survey.expiresAt S) (Pg.server_now c) (Pg.server_now c)
                    (Some (User.id u)))
               = stored_as S (Pg.server_now c)).
  { unfold transformDatabaseSurvey, stored_as. simpl. now rewrite Hp, Hb. }
  rewrite HS. split; [reflexivity|].
  eexists; split; [reflexivity|]. rewrite <- HS. apply in_map.
  apply (Permutation_in _ (Permutation_sym (sort_desc_perm _ _))).
  apply filter_In. split.
  - apply in_app_iff. right. now left.
  - simpl. now rewrite String.eqb_refl.
Qed.

Lemma saveSurvey_insert_round_trip_witness :
  let (r, w1) := saveSurvey (Pg.backend owner_conn) false cleared_survey
                   (Some (User.mk "u")) (mkWorld (mkLocalStore [] []) (Pg.mkDB [] []) 200) in
  r = Resolved (stored_as cleared_survey 200) /\
  exists l, fst (getSurveys (Pg.backend owner_conn) false (Some (User.mk "u")) w1)
            = Resolved l /\ In (stored_as cleared_survey 200) l.
Proof.
  exact (saveSurvey_insert_round_trip owner_conn (User.mk "u") cleared_survey
           (mkWorld (mkLocalStore [] []) (Pg.mkDB [] []) 200) "p1" true
           eq_refl eq_refl eq_refl ltac:(discriminate) ltac:(simpl; tauto)
           ltac:(simpl; tauto)).
Defined.

Lemma key_unique {A} (key : A -> string) (l : list A) (x y : A) :
  NoDup (map key l) -> In x l -> In y l -> key x = key y -> x = y.
Proof.
  induction l as [|a l IH]; simpl; intros Hnd Hx Hy Hk; [contradiction|].
  inversion Hnd as [|? ? Hnotin Hnd']; subst.
  destruct Hx as [<-|Hx], Hy as [<-|Hy]; auto.
  - exfalso. apply Hnotin. rewrite Hk. now apply in_map.
  - exfalso. apply Hnotin. rewrite <- Hk. now apply in_map.
Qed.

Lemma world_eta {St} (w : World St) : mkWorld (local w) (remote w) (clock w) = w.
Proof. now destruct w. Qed.

Lemma db_eta (db : Pg.DB) : Pg.mkDB (Pg.surveys db) (Pg.responses db) = db.
Proof. now destruct db. Qed.

(** A signed-in user cannot take over another user's survey by saving a
    survey with its id: [saveSurvey] rejects with the permission message and
    the backend is left as it was. *)
Theorem saveSurvey_foreign_id_rejected (c : Pg.Conn) (u : User.t) (S : Survey.t)
  (w : World Pg.DB) (R : DatabaseSurvey.t)
  (Hrole : Pg.role c = Pg.Authenticated (User.id u)) (Ht : Survey.title S <> "")
  (Huniq : NoDup (map DatabaseSurvey.id (Pg.surveys (remote w))))
  (HR : In R (Pg.surveys (remote w))) (HRid : DatabaseSurvey.id R = Survey.id S)
  (Hown : DatabaseSurvey.user_id R <> Some (User.id u)) :
  saveSurvey (Pg.backend c) false S (Some u) w
  = (Rejected "Permission denied. Please ensure you are signed in.", w).
Proof.
  unfold saveSurvey, bind, call, throw, ret. rewrite !get_surveyData. simpl.
  rewrite (proj2 (String.eqb_neq _ _) Ht). simpl.
  unfold Pg.pg_upsert_survey, Pg.proposed_row, Pg.col_str, Pg.col_bool, Pg.has.
  rewrite !get_surveyData. simpl. rewrite Hrole. simpl.
  rewrite (proj2 (String.eqb_neq _ _) Ht), String.eqb_refl. simpl.
  rewrite (find_unique_key _ _ R Huniq HR HRid). simpl.
  rewrite (user_is_neq _ _ Hown). simpl. now rewrite world_eta.
Qed.

Lemma saveSurvey_foreign_id_rejected_witness :
  saveSurvey (Pg.backend (Pg.mkConn (Pg.Authenticated "intruder") 200 "uuid" "pid"))
    false cleared_survey (Some (User.mk "intruder")) limited_world
  = (Rejected "Permission denied. Please ensure you are signed in.", limited_world).
Proof.
  exact (saveSurvey_foreign_id_rejected
           (Pg.mkConn (Pg.Authenticated "intruder") 200 "uuid" "pid")
           (User.mk "intruder") cleared_survey limited_world limited_row
           eq_refl ltac:(discriminate) ltac:(repeat constructor; simpl; tauto)
           (or_introl eq_refl) eq_refl ltac:(discriminate)).
Defined.

(** [deleteSurvey] (remote mode, as [SurveyList] calls it, with the signed-in
    user): when the user owns no survey with that id it still resolves, and
    removes nothing; when the user owns it, exactly that survey and every
    response to it are removed. *)
Theorem deleteSurvey_owner_only (c : Pg.Conn) (u : User.t) (sid : string)
  (w : World Pg.DB) (Hrole : Pg.role c = Pg.Authenticated (User.id u)) :
  ((forall S, In S (Pg.surveys (remote w)) -> DatabaseSurvey.id S = sid ->
      DatabaseSurvey.user_id S <> Some (User.id u)) ->
   deleteSurvey (Pg.backend c) false sid (Some u) w = (Resolved tt, w)) /\
  (NoDup (map DatabaseSurvey.id (Pg.surveys (remote w))) ->
   (exists S, In S (Pg.surveys (remote w)) /\ DatabaseSurvey.id S = sid /\
              DatabaseSurvey.user_id S = Some (User.id u)) ->
   deleteSurvey (Pg.backend c) false sid (Some u) w
   = (Resolved tt,
      mkWorld (local w)
        (Pg.mkDB (filter (fun s => negb (String.eqb (DatabaseSurvey.id s) sid))
                    (Pg.surveys (remote w)))
                 (filter (fun r => negb (String.eqb (DatabaseResponse.survey_id r) sid))
                    (Pg.responses (remote w))))
        (clock w))).
Proof.
  assert (Hdel : forall s, Pg.deleted c sid (Some (User.id u)) s
                           = String.eqb (DatabaseSurvey.id s) sid
                             && Pg.user_is (DatabaseSurvey.user_id s) (User.id u)).
  { intros s. unfold Pg.deleted. rewrite Hrole. simpl.
    destruct (String.eqb (DatabaseSurvey.id s) sid); simpl; [|reflexivity].
    now destruct (Pg.user_is (DatabaseSurvey.user_id s) (User.id u)). }
  unfold deleteSurvey, bind, call, ret; simpl. unfold Pg.pg_delete_surveys. split.
  - intros Hnone.
    assert (Hf : forall s, In s (Pg.surveys (remote w)) ->
                           Pg.deleted c sid (Some (User.id u)) s = false).
    { intros s Hs. rewrite Hdel.
      destruct (String.eqb_spec (DatabaseSurvey.id s) sid) as [E|E]; [|reflexivity].
      simpl. now apply user_is_neq, Hnone. }
    rewrite filter_all.
    2:{ intros y Hy. now rewrite (Hf y Hy). }
    rewrite filter_all.
    2:{ intros r _. rewrite existsb_none; [reflexivity|].
        intros y Hy. now rewrite (Hf y Hy). }
    now rewrite db_eta, world_eta.
  - intros Huniq [S [HS [HSid HSown]]].
    assert (Hd : forall s, In s (Pg.surveys (remote w)) ->
                           Pg.deleted c sid (Some (User.id u)) s
                           = String.eqb (DatabaseSurvey.id s) sid).
    { intros s Hs. rewrite Hdel.
      destruct (String.eqb_spec (DatabaseSurvey.id s) sid) as [E|E]; [|reflexivity].
      rewrite <- HSid in E. rewrite (key_unique _ _ _ _ Huniq Hs HS E), HSown. simpl.
      now rewrite String.eqb_refl. }
    f_equal. f_equal. f_equal.
    + apply filter_ext_in. intros s Hs. now rewrite Hd.
    + apply filter_ext. intros r. f_equal.
      destruct (String.eqb_spec (DatabaseResponse.survey_id r) sid) as [E|E].
      * apply existsb_exists. exists S. split; [exact HS|].
        rewrite (Hd S HS), HSid, E, String.eqb_refl. reflexivity.
      * apply existsb_none. intros y Hy. rewrite (Hd y Hy).
        destruct (String.eqb_spec (DatabaseSurvey.id y) sid) as [E'|E']; [|reflexivity].
        simpl. apply String.eqb_neq. congruence.
Qed.

Lemma deleteSurvey_owner_only_witness :
  deleteSurvey (Pg.backend owner_conn) false "s1" (Some (User.mk "u"))
    (mkWorld (mkLocalStore [] []) (Pg.mkDB [limited_row] [one_response]) 200)
  = (Resolved tt, mkWorld (mkLocalStore [] []) (Pg.mkDB [] []) 200).
Proof.
  rewrite (proj2 (deleteSurvey_owner_only owner_conn (User.mk "u") "s1"
                    (mkWorld (mkLocalStore [] []) (Pg.mkDB [limited_row] [one_response]) 200)
                    eq_refl)
             ltac:(repeat constructor; simpl; tauto)
             (ex_intro _ limited_row (conj (or_introl eq_refl) (conj eq_refl eq_refl)))).
  reflexivity.
Defined.

Lemma transformDatabaseResponse_inserted (r : Response.t) (ip : option string)
  (uid : option string) :
  transformDatabaseResponse
    (DatabaseResponse.mk (ResponseInsert.id (responseData r))
       (ResponseInsert.survey_id (responseData r)) (ResponseInsert.answers (responseData r))
       (ResponseInsert.submitted_at (responseData r)) ip uid) = r.
Proof. now destruct r. Qed.

(** A response submitted by a signed-in user (to a stored survey, under a
    fresh id) is saved unchanged, and the survey's owner then finds it among
    [getResponsesForSurvey]'s results. *)
Theorem saveResponse_then_owner_reads (c1 c2 : Pg.Conn) (v : string) (owner : User.t)
  (r : Response.t) (w : World Pg.DB) (S : DatabaseSurvey.t)
  (Hr1 : Pg.role c1 = Pg.Authenticated v)
  (Hr2 : Pg.role c2 = Pg.Authenticated (User.id owner))
  (Huniq : NoDup (map DatabaseSurvey.id (Pg.surveys (remote w))))
  (HS : In S (Pg.surveys (remote w))) (HSid : DatabaseSurvey.id S = Response.surveyId r)
  (Hown : DatabaseSurvey.user_id S = Some (User.id owner))
  (Hfresh : ~ In (Response.id r) (map DatabaseResponse.id (Pg.responses (remote w)))) :
  let (res, w1) := saveResponse (Pg.backend c1) false r w in
  res = Resolved r /\
  exists l, fst (getResponsesForSurvey (Pg.backend c2) false (Response.surveyId r)
                   (Some owner) w1) = Resolved l /\ In r l.
Proof.
  unfold saveResponse, bind, call, throw, ret; simpl. unfold Pg.pg_insert_response.
  assert (Hex : existsb (fun s => String.eqb (DatabaseSurvey.id s)
                                    (ResponseInsert.survey_id (responseData r)))
                  (Pg.surveys (remote w)) = true).
  { apply existsb_exists. exists S. split; [exact HS|]. simpl. rewrite HSid.
    apply String.eqb_refl. }
  rewrite Hex. simpl.
  rewrite existsb_none.
  2:{ intros y Hy. destruct (String.eqb_spec (DatabaseResponse.id y) (Response.id r)) as [E|E];
      [|reflexivity]. exfalso. apply Hfresh. rewrite <- E. now apply in_map. }
  rewrite Hr1. simpl. split; [now destruct r|].
  unfold getResponsesForSurvey, bind, query, ret, throw; simpl.
  unfold Pg.pg_select_survey_owner.
  rewrite (filter_unique_key DatabaseSurvey.id _ _ S Huniq HS).
  2:{ intros y _ Hy. apply andb_prop in Hy as [Hy _].
      apply andb_prop in Hy as [_ Hy]. apply String.eqb_eq in Hy. congruence. }
  rewrite Hr2. simpl. rewrite Hown, HSid, !String.eqb_refl. simpl.
  unfold Pg.pg_select_responses, Pg.visible_responses. rewrite Hr2. simpl.
  rewrite ?String.eqb_refl. simpl.
  eexists; split; [reflexivity|].
  apply in_map_iff. eexists; split; [apply (transformDatabaseResponse_inserted r None (Some v))|].
  apply (Permutation_in _ (Permutation_sym (sort_desc_perm _ _))).
  apply filter_In. split.
  - apply in_app_iff. right. now left.
  - simpl. apply String.eqb_refl.
Qed.

Definition visitor_conn : Pg.Conn := Pg.mkConn (Pg.Authenticated "visitor") 200 "uuid" "pid".

Lemma saveResponse_then_owner_reads_witness :
  let (res, w1) := saveResponse (Pg.backend visitor_conn) false (Response.mk "r9" "s2" [] 150)
                     (mkWorld (mkLocalStore [] []) (Pg.mkDB [public_row] []) 200) in
  res = Resolved (Response.mk "r9" "s2" [] 150) /\
  exists l, fst (getResponsesForSurvey (Pg.backend owner_conn) false "s2"
                   (Some (User.mk "u")) w1) = Resolved l /\
            In (Response.mk "r9" "s2" [] 150) l.
Proof.
  exact (saveResponse_then_owner_reads visitor_conn owner_conn "visitor" (User.mk "u")
           (Response.mk "r9" "s2" [] 150)
           (mkWorld (mkLocalStore [] []) (Pg.mkDB [public_row] []) 200) public_row
           eq_refl eq_refl ltac:(repeat constructor; simpl; tauto) (or_introl eq_refl)
           eq_refl eq_refl ltac:(simpl; tauto)).
Defined.

(** [isLimitReached] of [PublicSurveyTaker]:
    [survey.responseLimit && responseCount >= survey.responseLimit]. *)
Definition publicIsLimitReached (responseLimit : option Z) (responseCount : Z) : bool :=
  match responseLimit with
  | Some l => truthy (JNum l) && Z.geb responseCount l
  | None => false
  end.

(** [isExpired] of [PublicSurveyTaker]:
    [survey.expiresAt && new Date() > new Date(survey.expiresAt)]. *)
Definition publicIsExpired (now : Z) (expiresAt : option Z) : bool :=
  is_expired now expiresAt.

(** The response count [PublicSurveyTaker] loads on mount:
    [(await getResponsesForSurvey(survey.id)).length], left at its initial
    [0] when the call rejects. *)
Definition publicResponseCount {St} (be : Backend St) (useFallback : bool)
  (survey : Survey.t) (w : World St) : Z :=
  match fst (getResponsesForSurvey be useFallback (Survey.id survey) None w) with
  | Resolved rs => Z.of_nat (length rs)
  | Rejected _ => 0
  end.

(** On the public survey page an anonymous visitor (remote mode) loads a
    response count of 0 whatever responses are stored, since [anon] has no
    select policy on [responses]; so the page's limit check never blocks
    such a visitor for a non-negative limit. *)
Theorem public_page_anonymous_count (c : Pg.Conn) (survey : Survey.t) (w : World Pg.DB)
  (Hanon : Pg.role c = Pg.Anon) :
  getResponsesForSurvey (Pg.backend c) false (Survey.id survey) None w = (Resolved [], w) /\
  publicResponseCount (Pg.backend c) false survey w = 0%Z /\
  ((forall l, Survey.responseLimit survey = Some l -> (0 <= l)%Z) ->
   publicIsLimitReached (Survey.responseLimit survey)
     (publicResponseCount (Pg.backend c) false survey w) = false).
Proof.
  assert (H : getResponsesForSurvey (Pg.backend c) false (Survey.id survey) None w
              = (Resolved [], w)).
  { unfold getResponsesForSurvey, bind, query, ret; simpl.
    unfold Pg.pg_select_responses, Pg.visible_responses. rewrite Hanon. simpl.
    now rewrite filter_none. }
  assert (Hc : publicResponseCount (Pg.backend c) false survey w = 0%Z).
  { unfold publicResponseCount. now rewrite H. }
  refine (conj H (conj Hc _)). intros Hl. rewrite Hc.
  unfold publicIsLimitReached. destruct (Survey.responseLimit survey) as [l|]; [|reflexivity].
  specialize (Hl l eq_refl). simpl.
  destruct (Z.eqb_spec l 0); simpl; [reflexivity|].
  rewrite Z.geb_leb. apply Z.leb_gt. lia.
Qed.

(** A world where the public survey [s2] (limit 1) already has one stored
    response, and an unrelated survey's response is stored too. *)
Definition answered_public_world : World Pg.DB :=
  mkWorld (mkLocalStore [] [])
    (Pg.mkDB [public_row] [DatabaseResponse.mk "r2" "s2" [] 60 None None; one_response]) 200.

Lemma public_page_anonymous_count_witness :
  Pg.role (Pg.mkConn Pg.Anon 200 "uuid" "pid") = Pg.Anon /\
  (getResponsesForSurvey (Pg.backend (Pg.mkConn Pg.Anon 200 "uuid" "pid")) false "s2" None
     answered_public_world = (Resolved [], answered_public_world) /\
   publicResponseCount (Pg.backend (Pg.mkConn Pg.Anon 200 "uuid" "pid")) false
     (transformDatabaseSurvey public_row) answered_public_world = 0%Z /\
   ((forall l, Survey.responseLimit (transformDatabaseSurvey public_row) = Some l -> (0 <= l)%Z) ->
    publicIsLimitReached (Survey.responseLimit (transformDatabaseSurvey public_row))
      (publicResponseCount (Pg.backend (Pg.mkConn Pg.Anon 200 "uuid" "pid")) false
         (transformDatabaseSurvey public_row) answered_public_world) = false)).
Proof.
  split; [reflexivity|].
  exact (public_page_anonymous_count (Pg.mkConn Pg.Anon 200 "uuid" "pid")
           (transformDatabaseSurvey public_row) answered_public_world eq_refl).
Defined.

(** [getSurveys()] without a user context (as [App] calls it), in remote
    mode, lists exactly the stored surveys the caller's role may read: for a
    signed-in user their own and every active public survey of other users,
    for an anonymous caller the active public ones; newest first. *)
Theorem getSurveys_without_user (c : Pg.Conn) (w : World Pg.DB) :
  exists rows,
    fst (getSurveys (Pg.backend c) false None w) = Resolved (map transformDatabaseSurvey rows) /\
    (forall R, In R rows <->
       In R (Pg.surveys (remote w)) /\
       ((exists v, Pg.role c = Pg.Authenticated v /\ DatabaseSurvey.user_id R = Some v) \/
        (DatabaseSurvey.is_active R = true /\ DatabaseSurvey.allow_public_access R = true))) /\
    Sorted (desc DatabaseSurvey.created_at) rows.
Proof.
  unfold getSurveys, bind, query, ret; simpl. unfold Pg.pg_select_surveys.
  eexists; split; [reflexivity|]. split; [|apply sort_desc_sorted].
  intros R. split.
  - intros HR. apply (Permutation_in _ (sort_desc_perm _ _)) in HR.
    apply filter_In in HR as [HR Hp]. split; [exact HR|].
    rewrite andb_true_r in Hp. unfold Pg.survey_select_policy, Pg.is_public in Hp.
    destruct (Pg.role c) as [|v] eqn:Er.
    + right. now apply andb_prop in Hp.
    + apply orb_prop in Hp as [Hp|Hp].
      * left. exists v. split; [reflexivity|]. now apply user_is_some.
      * right. now apply andb_prop in Hp.
  - intros [HR Hp]. apply (Permutation_in _ (Permutation_sym (sort_desc_perm _ _))).
    apply filter_In. split; [exact HR|]. rewrite andb_true_r.
    unfold Pg.survey_select_policy, Pg.is_public.
    destruct Hp as [[v [Er Hv]]|[Ha Hb]].
    + rewrite Er, Hv. simpl. now rewrite String.eqb_refl.
    + rewrite Ha, Hb. destruct (Pg.role c); simpl; auto using orb_true_r.
Qed.

(** [toggleSurveyStatus] of [SurveyList]: saves
    [{ ...survey, isActive: !survey.isActive }]. *)
Definition toggleSurveyStatus {St} (be : Backend St) (useFallback : bool)
  (survey : Survey.t) (user : option User.t) : M St Survey.t :=
  saveSurvey be useFallback
    (Survey.mk (Survey.id survey) (Survey.publicId survey) (Survey.title survey)
       (Survey.description survey) (Survey.questions survey) (Survey.createdAt survey)
       (negb (Survey.isActive survey)) (Survey.allowPublicAccess survey)
       (Survey.responseLimit survey) (Survey.expiresAt survey))
    user.

(** Toggling a listed survey's status as its owner (remote mode; ids and
    public ids unique) flips the stored [is_active] and changes no other
    column but [updated_at]; the other rows and all responses are kept. *)
Theorem toggleSurveyStatus_flips_only_active (c : Pg.Conn) (u : User.t) (w : World Pg.DB)
  (R : DatabaseSurvey.t)
  (Hrole : Pg.role c = Pg.Authenticated (User.id u))
  (Huniq : NoDup (map DatabaseSurvey.id (Pg.surveys (remote w))))
  (Hpuniq : NoDup (map DatabaseSurvey.public_id (Pg.surveys (remote w))))
  (HR : In R (Pg.surveys (remote w))) (Hown : DatabaseSurvey.user_id R = Some (User.id u))
  (Ht : DatabaseSurvey.title R <> "") :
  let R' := DatabaseSurvey.mk (DatabaseSurvey.id R) (DatabaseSurvey.public_id R)
              (DatabaseSurvey.title R) (DatabaseSurvey.description R)
              (DatabaseSurvey.questions R) (negb (DatabaseSurvey.is_active R))
              (DatabaseSurvey.allow_public_access R) (DatabaseSurvey.response_limit R)
              (DatabaseSurvey.expires_at R) (DatabaseSurvey.created_at R)
              (Pg.server_now c) (DatabaseSurvey.user_id R) in
  toggleSurveyStatus (Pg.backend c) false (transformDatabaseSurvey R) (Some u) w
  = (Resolved (transformDatabaseSurvey R'),
     mkWorld (local w)
       (Pg.mkDB (map (fun s => if String.eqb (DatabaseSurvey.id s) (DatabaseSurvey.id R)
                               then R' else s) (Pg.surveys (remote w)))
                (Pg.responses (remote w)))
       (clock w)).
Proof.
  intros R'.
  assert (Hfind := find_unique_key _ _ R Huniq HR eq_refl).
  assert (Htaken : forall row, DatabaseSurvey.id row = DatabaseSurvey.id R ->
                     DatabaseSurvey.public_id row = DatabaseSurvey.public_id R ->
                     Pg.public_id_taken (remote w) row = false).
  { intros row Hi Hp. unfold Pg.public_id_taken. apply existsb_none.
    intros y Hy. rewrite Hi, Hp.
    destruct (String.eqb_spec (DatabaseSurvey.public_id y) (DatabaseSurvey.public_id R))
      as [E|E]; [|apply andb_false_r].
    rewrite (key_unique _ _ _ _ Hpuniq Hy HR E), String.eqb_refl. reflexivity. }
  unfold R', toggleSurveyStatus, saveSurvey, bind, call, throw, ret.
  clear R'. rewrite !get_surveyData.
  destruct R as [rid rpid rt rd rq ra rp rl re rc ru ruid]; simpl in *. subst ruid.
  rewrite (proj2 (String.eqb_neq _ _) Ht). simpl.
  unfold Pg.pg_upsert_survey, Pg.proposed_row, Pg.merged_row, Pg.col_str, Pg.col_bool,
    Pg.has.
  rewrite !get_surveyData. simpl.
  rewrite Hrole. simpl. rewrite (proj2 (String.eqb_neq _ _) Ht), String.eqb_refl.
  simpl. rewrite Hfind. simpl. rewrite String.eqb_refl. simpl.
  destruct rl, re; simpl; rewrite Htaken by reflexivity; simpl;
    rewrite ?String.eqb_refl; reflexivity.
Qed.

Lemma toggleSurveyStatus_flips_only_active_witness :
  toggleSurveyStatus (Pg.backend owner_conn) false (transformDatabaseSurvey limited_row)
    (Some (User.mk "u")) limited_world
  = (Resolved (transformDatabaseSurvey
                 (DatabaseSurvey.mk "s1" "p1" "Feedback" "" [] false true (Some 10%Z) None
                    5 200 (Some "u"))),
     mkWorld (mkLocalStore [] [])
       (Pg.mkDB [DatabaseSurvey.mk "s1" "p1" "Feedback" "" [] false true (Some 10%Z) None
                   5 200 (Some "u")] []) 200).
Proof.
  exact (toggleSurveyStatus_flips_only_active owner_conn (User.mk "u") limited_world
           limited_row eq_refl ltac:(repeat constructor; simpl; tauto)
           ltac:(repeat constructor; simpl; tauto) (or_introl eq_refl) eq_refl
           ltac:(discriminate)).
Defined.

(** ** [getUserSurveyCount] and [getUserResponseCount] *)

(** [from(table).select('*', { count: 'exact', head: true }).eq('user_id', uid)]:
    the count ([null] when the backend sends none). *)
Definition CountQuery (St : Type) := string -> St -> PgResult (option Z).

(** [count || 0] *)
Definition count_or_zero (count : option Z) : Z :=
  match count with Some n => if truthy (JNum n) then n else 0 | None => 0 end.

Definition getUserSurveyCount {St} (q : CountQuery St) (useFallback : bool) (user : User.t)
  : M St Z :=
  if useFallback then local_read (fun ls => Z.of_nat (length (ls_surveys ls)))
  else
    r <- query (q (User.id user)) ;;
    match r with
    | PgErr _ => ret 0%Z
    | PgOk count => ret (count_or_zero count)
    end.

Definition getUserResponseCount {St} (q : CountQuery St) (useFallback : bool)
  (user : User.t) : M St Z :=
  if useFallback then local_read (fun ls => Z.of_nat (length (ls_responses ls)))
  else
    r <- query (q (User.id user)) ;;
    match r with
    | PgErr _ => ret 0%Z
    | PgOk count => ret (count_or_zero count)
    end.

(** The two count queries on the backend, under the select policies. *)
Definition pg_count_surveys_of (c : Pg.Conn) : CountQuery Pg.DB :=
  fun uid db =>
    PgOk (Some (Z.of_nat (length
      (filter (fun s => Pg.survey_select_policy (Pg.role c) s
                        && Pg.user_is (DatabaseSurvey.user_id s) uid) (Pg.surveys db))))).

Definition pg_count_responses_of (c : Pg.Conn) : CountQuery Pg.DB :=
  fun uid db =>
    PgOk (Some (Z.of_nat (length
      (filter (fun r => Pg.response_select_policy (Pg.role c) r
                        && Pg.user_is (DatabaseResponse.user_id r) uid) (Pg.responses db))))).

Lemma count_or_zero_nat (n : nat) :
  (if negb (Z.of_nat n =? 0)%Z then Z.of_nat n else 0%Z) = Z.of_nat n.
Proof. destruct (Z.eqb_spec (Z.of_nat n) 0); simpl; lia. Qed.

(** [getUserSurveyCount] (remote mode) never rejects: a failed count reads as
    0; for a signed-in user it is the number of stored surveys the user
    owns. *)
Theorem getUserSurveyCount_owned {St} (q : CountQuery St) (user : User.t) (w : World St) :
  (forall e, q (User.id user) (remote w) = PgErr e ->
     getUserSurveyCount q false user w = (Resolved 0%Z, w)) /\
  (forall (c : Pg.Conn) (w' : World Pg.DB), Pg.role c = Pg.Authenticated (User.id user) ->
     getUserSurveyCount (pg_count_surveys_of c) false user w'
     = (Resolved (Z.of_nat (length (filter (fun s => Pg.user_is (DatabaseSurvey.user_id s)
                                                       (User.id user))
                                       (Pg.surveys (remote w'))))), w')).
Proof.
  split.
  - intros e He. unfold getUserSurveyCount, bind, query, ret; simpl. now rewrite He.
  - intros c w' Hrole. unfold getUserSurveyCount, bind, query, ret, pg_count_surveys_of; simpl.
    rewrite count_or_zero_nat. do 4 f_equal.
    apply filter_ext. intros s. rewrite Hrole. unfold Pg.survey_select_policy.
    destruct (Pg.user_is (DatabaseSurvey.user_id s) (User.id user));
      [reflexivity | apply andb_false_r].
Qed.

(** [getUserResponseCount] counts the responses the user submitted while
    signed in (the trigger stamps the submitter into [user_id]), not the
    responses to the user's surveys: after a signed-in user [v] submits a
    response to any stored survey, [v]'s count grows by one and every other
    user's count, the survey owner's included, stays as it was. *)
Theorem getUserResponseCount_counts_submissions (c1 : Pg.Conn) (v : string)
  (r : Response.t) (w : World Pg.DB) (S : DatabaseSurvey.t)
  (Hr1 : Pg.role c1 = Pg.Authenticated v)
  (HS : In S (Pg.surveys (remote w))) (HSid : DatabaseSurvey.id S = Response.surveyId r)
  (Hfresh : ~ In (Response.id r) (map DatabaseResponse.id (Pg.responses (remote w)))) :
  let (res, w1) := saveResponse (Pg.backend c1) false r w in
  res = Resolved r /\
  forall (c2 : Pg.Conn) (x : User.t) (y : string), Pg.role c2 = Pg.Authenticated y ->
    exists n,
      fst (getUserResponseCount (pg_count_responses_of c2) false x w) = Resolved n /\
      fst (getUserResponseCount (pg_count_responses_of c2) false x w1)
      = Resolved (n + if String.eqb v (User.id x) then 1 else 0)%Z.
Proof.
  unfold saveResponse, bind, call, throw, ret; simpl. unfold Pg.pg_insert_response.
  assert (Hex : existsb (fun s => String.eqb (DatabaseSurvey.id s)
                                    (ResponseInsert.survey_id (responseData r)))
                  (Pg.surveys (remote w)) = true).
  { apply existsb_exists. exists S. split; [exact HS|]. simpl. rewrite HSid.
    apply String.eqb_refl. }
  rewrite Hex. simpl.
  rewrite existsb_none.
  2:{ intros y Hy. destruct (String.eqb_spec (DatabaseResponse.id y) (Response.id r)) as [E|E];
      [|reflexivity]. exfalso. apply Hfresh. rewrite <- E. now apply in_map. }
  rewrite Hr1. simpl. split; [now destruct r|].
  intros c2 x y Hr2.
  unfold getUserResponseCount, bind, query, ret, pg_count_responses_of; simpl.
  rewrite !count_or_zero_nat. eexists; split; [reflexivity|].
  rewrite filter_app, length_app. simpl. rewrite Hr2. simpl.
  f_equal. destruct (String.eqb v (User.id x)); simpl; lia.
Qed.

Lemma getUserResponseCount_counts_submissions_witness :
  let (res, w1) := saveResponse (Pg.backend visitor_conn) false (Response.mk "r9" "s2" [] 150)
                     (mkWorld (mkLocalStore [] []) (Pg.mkDB [public_row] []) 200) in
  res = Resolved (Response.mk "r9" "s2" [] 150) /\
  forall (c2 : Pg.Conn) (x : User.t) (y : string), Pg.role c2 = Pg.Authenticated y ->
    exists n,
      fst (getUserResponseCount (pg_count_responses_of c2) false x
             (mkWorld (mkLocalStore [] []) (Pg.mkDB [public_row] []) 200)) = Resolved n /\
      fst (getUserResponseCount (pg_count_responses_of c2) false x w1)
      = Resolved (n + if String.eqb "visitor" (User.id x) then 1 else 0)%Z.
Proof.
  exact (getUserResponseCount_counts_submissions visitor_conn "visitor"
           (Response.mk "r9" "s2" [] 150)
           (mkWorld (mkLocalStore [] []) (Pg.mkDB [public_row] []) 200) public_row
           eq_refl (or_introl eq_refl) eq_refl ltac:(simpl; tauto)).
Defined.

(** ** [validateForm] of [PublicSurveyTaker] and [SurveyTaker]

    Both components hold the answers in an object
    [{ [questionId: string]: string | number }] and validate them with the
    same [validateForm]. *)

Inductive FormValue := FStr (s : string) | FNum (n : Z).

(** The [answers] object, as its entries. *)
Definition FormAnswers := list (string * FormValue).

(** [answers[id]] ([undefined] is [None]). *)
Fixpoint answer_of (answers : FormAnswers) (k : string) : option FormValue :=
  match answers with
  | [] => None
  | (k', v) :: a => if String.eqb k k' then Some v else answer_of a k
  end.

(** [!!answers[id]] *)
Definition answer_truthy (v : option FormValue) : bool :=
  match v with
  | None => false
  | Some (FStr s) => negb (String.eqb s "")
  | Some (FNum n) => negb (Z.eqb n 0)
  end.

(** [String(answers[id])], the argument [emailRegex.test] converts to. *)
Definition answer_string (v : option FormValue) : string :=
  match v with
  | None => "undefined"
  | Some (FStr s) => s
  | Some (FNum n) => NilZero.string_of_int (Z.to_int n)
  end.

(** [\s] on ASCII characters: space, tab, line feed, vertical tab, form feed
    and carriage return. *)
Definition is_js_space (c : ascii) : bool :=
  let n := nat_of_ascii c in Nat.eqb n 32 || (Nat.leb 9 n && Nat.leb n 13).

(** [[^\s@]] *)
Definition not_space_or_at (c : ascii) : bool :=
  negb (is_js_space c) && negb (Ascii.eqb c "@"%char).

(** The atoms of an anchored regular expression made of character classes,
    each taken once or repeated with [+]. *)
Inductive Atom := One (p : ascii -> bool) | Plus (p : ascii -> bool).

(** [/^atoms$/.test(s)]: a [+] tries every length. *)
Fixpoint re_test (rs : list Atom) (s : string) : bool :=
  match rs with
  | [] => match s with EmptyString => true | String _ _ => false end
  | One p :: rs' =>
      match s with EmptyString => false | String c s' => p c && re_test rs' s' end
  | Plus p :: rs' =>
      (fix go (s : string) : bool :=
         match s with
         | EmptyString => false
         | String c s' => p c && (re_test rs' s' || go s')
         end) s
  end.

(** [/^[^\s@]+@[^\s@]+\.[^\s@]+$/] *)
Definition emailRegex : list Atom :=
  [Plus not_space_or_at; One (fun c => Ascii.eqb c "@"%char); Plus not_space_or_at;
   One (fun c => Ascii.eqb c "."%char); Plus not_space_or_at].

Definition is_email_type (t : QuestionType) : bool :=
  match t with QEmail => true | _ => false end.

Definition is_number_type (t : QuestionType) : bool :=
  match t with QNumber => true | _ => false end.

(** [newErrors[id] = msg]: an existing entry is overwritten in place, a new
    one is added at the end. *)
Fixpoint set_error (errs : list (string * string)) (k m : string)
  : list (string * string) :=
  match errs with
  | [] => [(k, m)]
  | (k', m') :: e => if String.eqb k k' then (k, m) :: e else (k', m') :: set_error e k m
  end.

Section ValidateForm.

(** [isNaN(Number(s))] for a string [s] (JavaScript's string-to-number
    conversion). *)
Variable string_is_nan : string -> bool.

(** [isNaN(Number(answers[id]))]: a number converts to itself. *)
Definition answer_is_nan (v : option FormValue) : bool :=
  match v with
  | Some (FNum _) => false
  | Some (FStr s) => string_is_nan s
  | None => true
  end.

(** The body of [survey.questions.forEach(question => ...)]. *)
Definition validate_question (answers : FormAnswers) (errs : list (string * string))
  (q : Question) : list (string * string) :=
  let a := answer_of answers (q_id q) in
  let e1 := if q_required q && negb (answer_truthy a)
            then set_error errs (q_id q) "This field is required" else errs in
  let e2 := if is_email_type (q_type q) && answer_truthy a
            then if negb (re_test emailRegex (answer_string a))
                 then set_error e1 (q_id q) "Please enter a valid email address" else e1
            else e1 in
  if is_number_type (q_type q) && answer_truthy a
  then if answer_is_nan a then set_error e2 (q_id q) "Please enter a valid number" else e2
  else e2.

(** The errors [validateForm] sets. *)
Definition form_errors (questions : list Question) (answers : FormAnswers)
  : list (string * string) :=
  fold_left (validate_question answers) questions [].

(** [Object.keys(newErrors).length === 0] *)
Definition validateForm (questions : list Question) (answers : FormAnswers) : bool :=
  Nat.eqb (length (form_errors questions answers)) 0.

End ValidateForm.

(** [every(p)] over the characters of a string. *)
Fixpoint all_chars (p : ascii -> bool) (s : string) : bool :=
  match s with EmptyString => true | String c s' => p c && all_chars p s' end.

(** The shape [emailRegex] accepts, in words: a non-empty part before an
    [@], and after it a domain with a [.] that is neither its first nor its
    last character; neither part holds a white-space character or an [@]. *)
Definition email_shape (s : string) : Prop :=
  exists local domain d1 d2,
    s = String.append local (String "@" domain) /\
    domain = String.append d1 (String "." d2) /\
    local <> EmptyString /\ d1 <> EmptyString /\ d2 <> EmptyString /\
    all_chars not_space_or_at local = true /\ all_chars not_space_or_at domain = true.

Lemma all_chars_app (p : ascii -> bool) (a b : string) :
  all_chars p (String.append a b) = all_chars p a && all_chars p b.
Proof. induction a as [|c a IH]; simpl; [reflexivity|]. now rewrite IH, andb_assoc. Qed.

Lemma string_append_assoc (a b c : string) :
  String.append (String.append a b) c = String.append a (String.append b c).
Proof. induction a as [|x a IH]; simpl; [reflexivity|]. now rewrite IH. Qed.

Lemma string_append_empty (a : string) : String.append a EmptyString = a.
Proof. induction a as [|x a IH]; simpl; [reflexivity|]. now rewrite IH. Qed.

Lemma re_test_nil (s : string) : re_test [] s = true <-> s = EmptyString.
Proof. destruct s; simpl; split; congruence. Qed.

Lemma re_test_one (p : ascii -> bool) (rs : list Atom) (s : string) :
  re_test (One p :: rs) s = true <->
  exists c s', s = String c s' /\ p c = true /\ re_test rs s' = true.
Proof.
  destruct s as [|c s']; simpl.
  - split; [discriminate|]. intros (c & s' & E & _). discriminate.
  - rewrite andb_true_iff. split.
    + intros [H1 H2]. now exists c, s'.
    + intros (c' & s'' & E & H1 & H2). injection E as -> ->. now split.
Qed.

Lemma re_test_plus (p : ascii -> bool) (rs : list Atom) (s : string) :
  re_test (Plus p :: rs) s = true <->
  exists a b, s = String.append a b /\ a <> EmptyString /\ all_chars p a = true /\
              re_test rs b = true.
Proof.
  induction s as [|c s' IH].
  - simpl. split; [discriminate|].
    intros (a & b & E & Ha & _). destruct a; [contradiction|discriminate].
  - change (re_test (Plus p :: rs) (String c s'))
      with (p c && (re_test rs s' || re_test (Plus p :: rs) s')).
    rewrite andb_true_iff, orb_true_iff, IH. split.
    + intros [Hc [Hr | (a & b & E & Ha & Hp & Hr)]].
      * exists (String c EmptyString), s'. simpl. rewrite Hc. repeat split; easy.
      * exists (String c a), b. subst s'. simpl. rewrite Hc, Hp. repeat split; easy.
    + intros (a & b & E & Ha & Hp & Hr). destruct a as [|c' a]; [contradiction|].
      simpl in E, Hp. injection E as -> ->. apply andb_true_iff in Hp as [Hc Hp].
      split; [exact Hc|]. destruct a as [|x a].
      * left. exact Hr.
      * right. exists (String x a), b. repeat split; easy.
Qed.

Lemma re_test_email_shape (s : string) :
  re_test emailRegex s = true <-> email_shape s.
Proof.
  unfold emailRegex, email_shape. rewrite re_test_plus. split.
  - intros (local & r1 & E1 & Hl & Hpl & H1).
    apply re_test_one in H1 as (at_ & r2 & E2 & Hat & H2).
    apply Ascii.eqb_eq in Hat. subst at_.
    apply re_test_plus in H2 as (d1 & r3 & E3 & Hd1 & Hp1 & H3).
    apply re_test_one in H3 as (dot & r4 & E4 & Hdot & H4).
    apply Ascii.eqb_eq in Hdot. subst dot.
    apply re_test_plus in H4 as (d2 & r5 & E5 & Hd2 & Hp2 & H5).
    apply re_test_nil in H5. subst.
    exists local, (String.append d1 (String "." d2)), d1, d2.
    rewrite string_append_empty.
    repeat split; try assumption.
    rewrite all_chars_app. simpl. now rewrite Hp1, Hp2.
  - intros (local & domain & d1 & d2 & E & Ed & Hl & Hd1 & Hd2 & Hpl & Hpd).
    subst. rewrite all_chars_app in Hpd. simpl in Hpd.
    apply andb_true_iff in Hpd as [Hp1 Hp2].
    exists local, (String "@" (String.append d1 (String "." d2))).
    repeat split; try assumption.
    apply re_test_one. exists "@"%char, (String.append d1 (String "." d2)).
    repeat split. apply re_test_plus.
    exists d1, (String "." d2). repeat split; try assumption.
    apply re_test_one. exists "."%char, d2. repeat split.
    apply re_test_plus. exists d2, EmptyString.
    rewrite string_append_empty. repeat split; assumption.
Qed.

(** [emailRegex.test(s)] holds exactly for the strings of the shape
    [local@d1.d2] described by [email_shape]. *)
Theorem emailRegex_shape (s : string) :
  re_test emailRegex s = true <-> email_shape s.
Proof. apply re_test_email_shape. Qed.

Section ValidateFormFacts.

Variable string_is_nan : string -> bool.

(** The checks [validateForm] makes on one question, as a boolean. *)
Definition question_passes (answers : FormAnswers) (q : Question) : bool :=
  let a := answer_of answers (q_id q) in
  negb (q_required q && negb (answer_truthy a)) &&
  negb (is_email_type (q_type q) && answer_truthy a && negb (re_test emailRegex (answer_string a))) &&
  negb (is_number_type (q_type q) && answer_truthy a && answer_is_nan string_is_nan a).

Lemma set_error_nonempty (e : list (string * string)) (k m : string) : set_error e k m <> [].
Proof. destruct e as [|[k' m'] e]; simpl; [discriminate|]. destruct (String.eqb k k'); discriminate. Qed.

Lemma validate_question_passes (answers : FormAnswers) (e : list (string * string)) (q : Question) :
  question_passes answers q = true -> validate_question string_is_nan answers e q = e.
Proof.
  unfold question_passes, validate_question.
  destruct (q_required q && negb (answer_truthy (answer_of answers (q_id q)))); [discriminate|].
  destruct (is_email_type (q_type q) && answer_truthy (answer_of answers (q_id q)));
  destruct (re_test emailRegex (answer_string (answer_of answers (q_id q)))); simpl;
  try discriminate;
  destruct (is_number_type (q_type q) && answer_truthy (answer_of answers (q_id q)));
  destruct (answer_is_nan string_is_nan (answer_of answers (q_id q))); simpl; easy.
Qed.

Lemma validate_question_fails (answers : FormAnswers) (e : list (string * string)) (q : Question) :
  question_passes answers q = false -> validate_question string_is_nan answers e q <> [].
Proof.
  unfold question_passes, validate_question.
  destruct (q_required q && negb (answer_truthy (answer_of answers (q_id q))));
  destruct (is_email_type (q_type q) && answer_truthy (answer_of answers (q_id q)));
  destruct (re_test emailRegex (answer_string (answer_of answers (q_id q))));
  destruct (is_number_type (q_type q) && answer_truthy (answer_of answers (q_id q)));
  destruct (answer_is_nan string_is_nan (answer_of answers (q_id q))); simpl;
  try discriminate; intros _; apply set_error_nonempty.
Qed.

Lemma validate_question_nonempty (answers : FormAnswers) (e : list (string * string)) (q : Question) :
  e <> [] -> validate_question string_is_nan answers e q <> [].
Proof.
  intros He. destruct (question_passes answers q) eqn:Hq.
  - now rewrite validate_question_passes.
  - now apply validate_question_fails.
Qed.

Lemma fold_validate_empty (answers : FormAnswers) (qs : list Question) (e : list (string * string)) :
  fold_left (validate_question string_is_nan answers) qs e = [] <->
  e = [] /\ forallb (question_passes answers) qs = true.
Proof.
  revert e. induction qs as [|q qs IH]; intros e; simpl.
  - tauto.
  - rewrite IH, andb_true_iff. destruct (question_passes answers q) eqn:Hq.
    + rewrite validate_question_passes by exact Hq. tauto.
    + split; [intros [H _]; exfalso; exact (validate_question_fails answers e q Hq H)|].
      intros [_ [H _]]. discriminate.
Qed.

(** What one question requires of its answer to pass [validateForm]. *)
Definition question_ok (answers : FormAnswers) (q : Question) : Prop :=
  let a := answer_of answers (q_id q) in
  (q_required q = true -> answer_truthy a = true) /\
  (q_type q = QEmail -> answer_truthy a = true -> email_shape (answer_string a)) /\
  (q_type q = QNumber -> answer_truthy a = true -> answer_is_nan string_is_nan a = false).

Lemma question_passes_ok (answers : FormAnswers) (q : Question) :
  question_passes answers q = true <-> question_ok answers q.
Proof.
  unfold question_passes, question_ok. rewrite <- re_test_email_shape.
  destruct (q_required q), (answer_truthy (answer_of answers (q_id q))), (q_type q),
    (re_test emailRegex (answer_string (answer_of answers (q_id q)))),
    (answer_is_nan string_is_nan (answer_of answers (q_id q))); simpl;
  intuition congruence.
Qed.

End ValidateFormFacts.

(** [validateForm] accepts the answers exactly when every question of the
    survey passes: a required question has a non-empty answer (an empty
    string, or the number 0, counts as no answer); a non-empty answer to an
    email question has the shape [local@d1.d2] with no white space and no
    second [@]; a non-empty answer to a number question converts to a
    number. *)
Theorem validateForm_accepts (string_is_nan : string -> bool) (questions : list Question)
  (answers : FormAnswers) :
  validateForm string_is_nan questions answers = true <->
  Forall (question_ok string_is_nan answers) questions.
Proof.
  unfold validateForm, form_errors. rewrite Nat.eqb_eq, length_zero_iff_nil.
  rewrite fold_validate_empty, Forall_forall, forallb_forall.
  split.
  - intros [_ H] q Hq. apply question_passes_ok. now apply H.
  - intros H. split; [reflexivity|]. intros q Hq. apply question_passes_ok. now apply H.
Qed.

(** ** [moveQuestion] of [SurveyBuilder] *)

Inductive Direction := Up | Down.

(** [array.findIndex(pred)]: the first index, or [-1]. *)
Fixpoint findIndex {A} (pred : A -> bool) (l : list A) : Z :=
  match l with
  | [] => (-1)%Z
  | x :: l' => if pred x then 0%Z else
                 let i := findIndex pred l' in if Z.ltb i 0 then (-1)%Z else (i + 1)%Z
  end.

(** [array[i]] on an array whose slots may hold [undefined] ([None]). *)
Definition js_index {A} (l : list (option A)) (i : Z) : option A :=
  if Z.ltb i 0 then None
  else match nth_error l (Z.to_nat i) with Some v => v | None => None end.

Fixpoint replace_at {A} (l : list A) (n : nat) (v : A) : list A :=
  match l, n with
  | [], _ => []
  | _ :: l', O => v :: l'
  | x :: l', S n' => x :: replace_at l' n' v
  end.

(** [array[i] = v]: a negative [i] names an ordinary property, not a slot;
    an index past the end extends the array with holes. *)
Definition js_assign {A} (l : list (option A)) (i : Z) (v : option A) : list (option A) :=
  if Z.ltb i 0 then l
  else if Nat.ltb (Z.to_nat i) (length l) then replace_at l (Z.to_nat i) v
  else l ++ repeat None (Z.to_nat i - length l) ++ [v].

(** [moveQuestion(questionId, direction)]: the new [questions] array. *)
Definition moveQuestion (questionId : string) (direction : Direction)
  (questions : list Question) : list (option Question) :=
  let index := findIndex (fun q => String.eqb (q_id q) questionId) questions in
  let up := match direction with Up => true | Down => false end in
  if (up && Z.ltb 0 index) || (negb up && Z.ltb index (Z.of_nat (length questions) - 1))
  then
    let newQuestions := map Some questions in
    let targetIndex := if up then (index - 1)%Z else (index + 1)%Z in
    let a := js_index newQuestions targetIndex in
    let b := js_index newQuestions index in
    js_assign (js_assign newQuestions index a) targetIndex b
  else map Some questions.

Section MoveQuestion.

Local Open Scope list_scope.

Lemma findIndex_first {A} (pred : A -> bool) (pre post : list A) (q : A) :
  (forall p, In p pre -> pred p = false) -> pred q = true ->
  findIndex pred (pre ++ q :: post) = Z.of_nat (length pre).
Proof.
  intros Hpre Hq. induction pre as [|x pre IH]; simpl.
  - now rewrite Hq.
  - rewrite (Hpre x (or_introl eq_refl)).
    rewrite IH by (intros p Hp; apply Hpre; now right).
    destruct (Z.ltb_spec (Z.of_nat (length pre)) 0); lia.
Qed.

Lemma js_index_some {A} (l : list A) (n : nat) : js_index (map Some l) (Z.of_nat n) = nth_error l n.
Proof.
  unfold js_index. destruct (Z.ltb_spec (Z.of_nat n) 0); [lia|].
  rewrite Nat2Z.id, nth_error_map. now destruct (nth_error l n).
Qed.

Lemma replace_at_middle {A} (l1 l2 : list A) (x v : A) :
  replace_at (l1 ++ x :: l2) (length l1) v = l1 ++ v :: l2.
Proof. induction l1 as [|y l1 IH]; simpl; [reflexivity|]. now rewrite IH. Qed.

Lemma js_assign_middle {A} (l1 l2 : list (option A)) (x v : option A) :
  js_assign (l1 ++ x :: l2) (Z.of_nat (length l1)) v = l1 ++ v :: l2.
Proof.
  unfold js_assign. destruct (Z.ltb_spec (Z.of_nat (length l1)) 0); [lia|].
  rewrite Nat2Z.id, length_app. simpl.
  destruct (Nat.ltb_spec (length l1) (length l1 + S (length l2))); [|lia].
  apply replace_at_middle.
Qed.

(** [moveQuestion] on the first question with the given id swaps it with its
    neighbour above ([up]) or below ([down]) and leaves every other question
    in place; at the top ([up]) or at the bottom ([down]) it leaves the list
    unchanged. *)
Theorem moveQuestion_swaps (questionId : string) (pre post : list Question) (q : Question)
  (Hq : q_id q = questionId) (Hpre : forall p, In p pre -> q_id p <> questionId) :
  (forall pre' p, pre = pre' ++ [p] ->
     moveQuestion questionId Up (pre ++ q :: post) = map Some (pre' ++ q :: p :: post)) /\
  (pre = [] -> moveQuestion questionId Up (pre ++ q :: post) = map Some (pre ++ q :: post)) /\
  (forall p post', post = p :: post' ->
     moveQuestion questionId Down (pre ++ q :: post) = map Some (pre ++ p :: q :: post')) /\
  (post = [] -> moveQuestion questionId Down (pre ++ q :: post) = map Some (pre ++ q :: post)).
Proof.
  assert (Hidx : findIndex (fun q0 => String.eqb (q_id q0) questionId) (pre ++ q :: post)
                 = Z.of_nat (length pre)).
  { apply findIndex_first.
    - intros p Hp. apply String.eqb_neq. now apply Hpre.
    - apply String.eqb_eq. exact Hq. }
  unfold moveQuestion. rewrite Hidx. repeat split.
  - intros pre' p ->.
    assert (E1 : nth_error (pre' ++ p :: q :: post) (length pre') = Some p)
      by (rewrite nth_error_app2, Nat.sub_diag by lia; reflexivity).
    assert (E2 : nth_error (pre' ++ p :: q :: post) (S (length pre')) = Some q)
      by (rewrite nth_error_app2 by lia;
          replace (S (length pre') - length pre')%nat with 1%nat by lia; reflexivity).
    rewrite <- app_assoc. simpl. rewrite length_app. simpl.
    destruct (Z.ltb_spec 0 (Z.of_nat (length pre' + 1))); [|lia]. simpl.
    replace (Z.of_nat (length pre' + 1) - 1)%Z with (Z.of_nat (length pre')) by lia.
    replace (Z.of_nat (length pre' + 1)) with (Z.of_nat (S (length pre'))) by lia.
    rewrite !js_index_some, E1, E2, map_app. cbn [map].
    replace (map Some pre' ++ Some p :: Some q :: map Some post)
      with ((map Some pre' ++ [Some p]) ++ Some q :: map (@Some Question) post)
      by (rewrite <- app_assoc; reflexivity).
    replace (Z.of_nat (S (length pre')))
      with (Z.of_nat (length (map (@Some Question) pre' ++ [Some p])))
      by (rewrite length_app, length_map; simpl; lia).
    rewrite js_assign_middle, <- app_assoc. cbn [app].
    replace (Z.of_nat (length pre')) with (Z.of_nat (length (map (@Some Question) pre')))
      by (now rewrite length_map).
    rewrite js_assign_middle, map_app. reflexivity.
  - intros ->. simpl. reflexivity.
  - intros p post' ->.
    assert (E1 : nth_error (pre ++ q :: p :: post') (length pre) = Some q)
      by (rewrite nth_error_app2, Nat.sub_diag by lia; reflexivity).
    assert (E2 : nth_error (pre ++ q :: p :: post') (S (length pre)) = Some p)
      by (rewrite nth_error_app2 by lia;
          replace (S (length pre) - length pre)%nat with 1%nat by lia; reflexivity).
    rewrite length_app. simpl.
    destruct (Z.ltb_spec (Z.of_nat (length pre))
                (Z.of_nat (length pre + S (S (length post'))) - 1)); [|lia].
    rewrite ?orb_true_r.
    replace (Z.of_nat (length pre) + 1)%Z with (Z.of_nat (S (length pre))) by lia.
    rewrite !js_index_some, E1, E2, map_app. cbn [map].
    replace (Z.of_nat (length pre)) with (Z.of_nat (length (map (@Some Question) pre)))
      by (now rewrite length_map).
    rewrite js_assign_middle.
    replace (map Some pre ++ Some p :: Some p :: map Some post')
      with ((map Some pre ++ [Some p]) ++ Some p :: map (@Some Question) post')
      by (rewrite <- app_assoc; reflexivity).
    replace (Z.of_nat (S (length pre)))
      with (Z.of_nat (length (map (@Some Question) pre ++ [Some p])))
      by (rewrite length_app, length_map; simpl; lia).
    rewrite js_assign_middle, <- app_assoc, map_app. reflexivity.
  - intros ->. rewrite length_app. simpl.
    destruct (Z.ltb_spec (Z.of_nat (length pre)) (Z.of_nat (length pre + 1) - 1)); [lia|].
    rewrite ?orb_false_r. destruct (Z.ltb_spec 0 (Z.of_nat (length pre))); reflexivity.
Qed.

End MoveQuestion.

Lemma findIndex_none {A} (pred : A -> bool) (l : list A) :
  (forall x, In x l -> pred x = false) -> findIndex pred l = (-1)%Z.
Proof.
  intros H. induction l as [|x l IH]; simpl; [reflexivity|].
  rewrite (H x (or_introl eq_refl)), IH by (intros y Hy; apply H; now right). reflexivity.
Qed.

(** [moveQuestion] with an id no question has: [up] leaves the list as it
    is, while [down] on a non-empty list swaps slot 0 with index [-1]
    ([findIndex]'s "not found"), which is no array slot: the first question
    is replaced by [undefined] and the others stay. *)
Theorem moveQuestion_unknown_id (questionId : string) (q0 : Question) (rest : list Question)
  (Hnone : forall q, In q (q0 :: rest) -> q_id q <> questionId) :
  moveQuestion questionId Up (q0 :: rest) = map Some (q0 :: rest) /\
  moveQuestion questionId Down (q0 :: rest) = None :: map Some rest.
Proof.
  assert (Hidx : findIndex (fun q => String.eqb (q_id q) questionId) (q0 :: rest) = (-1)%Z).
  { apply findIndex_none. intros q Hq. apply String.eqb_neq. now apply Hnone. }
  unfold moveQuestion. rewrite Hidx. split; [reflexivity|].
  simpl length. destruct (Z.ltb_spec (-1) (Z.of_nat (S (length rest)) - 1)); [|lia].
  simpl. reflexivity.
Qed.

Definition sample_question (id : string) : Question := mkQuestion id QText id false None None.

Lemma moveQuestion_swaps_witness :
  let qa := sample_question "a" in let qb := sample_question "b" in
  let qc := sample_question "c" in
  (forall pre' p, [qa] = (pre' ++ [p])%list ->
     moveQuestion "b" Up ([qa] ++ qb :: [qc])%list = map Some (pre' ++ qb :: p :: [qc])%list) /\
  ([qa] = [] -> moveQuestion "b" Up ([qa] ++ qb :: [qc])%list = map Some ([qa] ++ qb :: [qc])%list) /\
  (forall p post', [qc] = p :: post' ->
     moveQuestion "b" Down ([qa] ++ qb :: [qc])%list = map Some ([qa] ++ p :: qb :: post')%list) /\
  ([qc] = [] -> moveQuestion "b" Down ([qa] ++ qb :: [qc])%list = map Some ([qa] ++ qb :: [qc])%list).
Proof.
  exact (moveQuestion_swaps "b" [sample_question "a"] [sample_question "c"] (sample_question "b")
           eq_refl ltac:(intros p [<- | []]; discriminate)).
Defined.

Lemma moveQuestion_unknown_id_witness :
  moveQuestion "z" Up [sample_question "a"; sample_question "b"]
  = map Some [sample_question "a"; sample_question "b"] /\
  moveQuestion "z" Down [sample_question "a"; sample_question "b"]
  = None :: map Some [sample_question "b"].
Proof.
  exact (moveQuestion_unknown_id "z" (sample_question "a") [sample_question "b"]
           ltac:(intros q [<- | [<- | []]]; discriminate)).
Defined.

(** ** Exports [src/utils/export.ts] and the choice analytics
    [SurveyAnalytics.getQuestionAnalytics] *)

(** [response.answers.find(a => a.questionId === questionId)] *)
Fixpoint find_answer (answers : list Answer) (qid : string) : option Answer :=
  match answers with
  | [] => None
  | a :: rest => if String.eqb (questionId a) qid then Some a else find_answer rest qid
  end.

(** [String(value)]: an array joins its elements with commas. *)
Definition value_to_string (v : AnswerValue) : string :=
  match v with
  | AText s => s
  | ANumber z => NilZero.string_of_int (Z.to_int z)
  | AList l => String.concat "," l
  end.

(** [answer ? String(answer.value) : ''] *)
Definition export_cell (r : Response.t) (q : Question) : string :=
  match find_answer (Response.answers r) (q_id q) with
  | Some a => value_to_string (value a)
  | None => ""
  end.

(** The members an object made by a literal ([{}], [{ 'Response ID': ... }])
    inherits from [Object.prototype]. *)
Definition object_prototype_keys : list string :=
  ["constructor"; "hasOwnProperty"; "isPrototypeOf"; "propertyIsEnumerable";
   "toLocaleString"; "toString"; "valueOf"; "__defineGetter__"; "__defineSetter__";
   "__lookupGetter__"; "__lookupSetter__"; "__proto__"].

Definition is_prototype_key (k : string) : bool :=
  existsb (String.eqb k) object_prototype_keys.

(** [o[k] = v] on such an object, [v] being a string or a number: an own key
    keeps its place and takes the new value; any other key is added, except
    ["__proto__"], whose inherited setter ignores a value that is not an
    object, so the assignment records nothing. The other inherited members
    are writable data properties: assigning one adds an own property.
    (JavaScript lists integer-like keys first; the order of the entries is
    not used below, only which own properties there are.) *)
Fixpoint obj_set {V} (o : list (string * V)) (k : string) (v : V) : list (string * V) :=
  match o with
  | [] => if String.eqb k "__proto__" then [] else [(k, v)]
  | (k', v') :: o' => if String.eqb k k' then (k', v) :: o' else (k', v') :: obj_set o' k v
  end.

(** The own property [k] of an object: what [Object.keys], [Object.entries]
    and [XLSX.utils.json_to_sheet] see. *)
Fixpoint own_property {V} (o : list (string * V)) (k : string) : option V :=
  match o with
  | [] => None
  | (k', v) :: o' => if String.eqb k k' then Some v else own_property o' k
  end.

(** What [o[k]] reads: an own property, else the member inherited from
    [Object.prototype] under [k] (a built-in method, or the prototype object
    itself for ["__proto__"]), else [undefined]. *)
Inductive JsRead (V : Type) := ROwn (v : V) | RInherited (k : string) | RUndefined.
Arguments ROwn {V} v.
Arguments RInherited {V} k.
Arguments RUndefined {V}.

Definition obj_get {V} (o : list (string * V)) (k : string) : JsRead V :=
  match own_property o k with
  | Some v => ROwn v
  | None => if is_prototype_key k then RInherited k else RUndefined
  end.

Section Exports.

(** [new Date(t).toLocaleString()] *)
Variable toLocaleString : Z -> string.

(** The header row of [exportToCSV] and [exportToExcel]. *)
Definition export_headers (questions : list Question) : list string :=
  ["Response ID"; "Submitted At"] ++ map q_title questions.

(** One data row of [exportToCSV]. *)
Definition csv_row (questions : list Question) (r : Response.t) : list string :=
  [Response.id r; toLocaleString (Response.submittedAt r)] ++ map (export_cell r) questions.

(** [[headers, ...data]], the table [exportToCSV] hands to [Papa.unparse]. *)
Definition csv_table (s : Survey.t) (responses : list Response.t) : list (list string) :=
  export_headers (Survey.questions s) :: map (csv_row (Survey.questions s)) responses.

(** One row object of [exportToExcel]. *)
Definition excel_row (questions : list Question) (r : Response.t) : list (string * string) :=
  fold_left (fun row q => obj_set row (q_title q) (export_cell r q)) questions
    [("Response ID", Response.id r); ("Submitted At", toLocaleString (Response.submittedAt r))].

End Exports.

(** [responses.map(r => r.answers.find(a => a.questionId === questionId)?.value).filter(Boolean)] *)
Definition value_truthy (v : option AnswerValue) : bool :=
  match v with
  | None => false
  | Some (AText s) => negb (String.eqb s "")
  | Some (ANumber z) => negb (Z.eqb z 0)
  | Some (AList _) => true
  end.

Definition truthy_answers (responses : list Response.t) (questionId : string)
  : list (option AnswerValue) :=
  filter value_truthy
    (map (fun r => option_map value (find_answer (Response.answers r) questionId))
       responses).

(** [distribution[answer as string]]: the property key of an answer. *)
Definition answer_key (v : option AnswerValue) : string :=
  match v with Some v => value_to_string v | None => "undefined" end.

(** A value held by [distribution]: a number, or a string once an inherited
    member has been read and [+ 1] has concatenated to it. *)
Inductive DistVal := DNum (n : Z) | DStr (s : string).

Section Distribution.

(** [String(f)] of the built-in method [f] inherited under the name [k]: the
    engine's [Function.prototype.toString], e.g.
    ["function toString() { [native code] }"]. *)
Variable native_source : string -> string.

(** [String(x)] of the member [x] inherited under [k]; through ["__proto__"]
    it is the prototype object, which converts to ["[object Object]"]. *)
Definition inherited_string (k : string) : string :=
  if String.eqb k "__proto__" then "[object Object]" else native_source k.

(** [(distribution[k] || 0) + 1]: [+] adds to a number and concatenates to a
    string, and to the text of an inherited member. *)
Definition bumped_value (x : JsRead DistVal) : DistVal :=
  match x with
  | ROwn (DNum n) => DNum ((if Z.eqb n 0 then 0 else n) + 1)
  | ROwn (DStr s) => if String.eqb s "" then DNum 1 else DStr (String.append s "1")
  | RInherited k => DStr (String.append (inherited_string k) "1")
  | RUndefined => DNum 1
  end.

(** [distribution[k] = (distribution[k] || 0) + 1] *)
Definition bump (d : list (string * DistVal)) (k : string) : list (string * DistVal) :=
  obj_set d k (bumped_value (obj_get d k)).

(** The [distribution] of a multiple-choice question, built the same way by
    [getQuestionAnalytics] and by [exportToPDF]. *)
Definition choice_distribution (responses : list Response.t) (questionId : string)
  : list (string * DistVal) :=
  fold_left (fun d a => bump d (answer_key a)) (truthy_answers responses questionId) [].

End Distribution.

Section ExportFacts.

Local Open Scope list_scope.

Variable toLocaleString : Z -> string.

(** [exportToCSV] keeps its columns aligned: every data row has as many
    cells as the header row, its first two cells are the response's id and
    submission time, and the column headed by the [i]-th question's title
    holds that response's (first) answer to that question, as
    [String(value)], or [''] when it has none. *)
Theorem csv_table_aligned (s : Survey.t) (responses : list Response.t) :
  hd [] (csv_table toLocaleString s responses) = export_headers (Survey.questions s) /\
  forall r, In r responses ->
    In (csv_row toLocaleString (Survey.questions s) r) (csv_table toLocaleString s responses) /\
    length (csv_row toLocaleString (Survey.questions s) r)
    = length (export_headers (Survey.questions s)) /\
    firstn 2 (csv_row toLocaleString (Survey.questions s) r)
    = [Response.id r; toLocaleString (Response.submittedAt r)] /\
    forall i q, nth_error (Survey.questions s) i = Some q ->
      nth_error (export_headers (Survey.questions s)) (2 + i) = Some (q_title q) /\
      nth_error (csv_row toLocaleString (Survey.questions s) r) (2 + i)
      = Some (export_cell r q).
Proof.
  split; [reflexivity|]. intros r Hr. split; [|split; [|split]].
  - right. now apply in_map.
  - unfold csv_row, export_headers. simpl. now rewrite !length_map.
  - reflexivity.
  - intros i q Hq. split.
    + unfold export_headers. simpl. rewrite nth_error_map, Hq. reflexivity.
    + unfold csv_row. simpl. rewrite nth_error_map, Hq. reflexivity.
Qed.

Lemma own_property_set {V} (o : list (string * V)) (k k' : string) (v : V) :
  own_property (obj_set o k v) k'
  = if String.eqb k' k then
      match own_property o k with
      | Some _ => Some v
      | None => if String.eqb k "__proto__" then None else Some v
      end
    else own_property o k'.
Proof.
  induction o as [|[k0 v0] o IH]; simpl.
  - destruct (String.eqb_spec k "__proto__"); simpl;
      destruct (String.eqb_spec k' k); reflexivity.
  - destruct (String.eqb_spec k k0) as [->|Hne]; simpl.
    + destruct (String.eqb k' k0); reflexivity.
    + rewrite IH. destruct (String.eqb_spec k' k0) as [->|Hne2].
      * destruct (String.eqb_spec k0 k) as [->|]; [contradiction|reflexivity].
      * reflexivity.
Qed.

Lemma own_property_set_other {V} (o : list (string * V)) (k k' : string) (v : V) :
  k' <> "__proto__" ->
  own_property (obj_set o k v) k' = if String.eqb k' k then Some v else own_property o k'.
Proof.
  intros Hk. rewrite own_property_set.
  destruct (String.eqb_spec k' k) as [<-|]; [|reflexivity].
  destruct (own_property o k'); [reflexivity|].
  destruct (String.eqb_spec k' "__proto__"); [contradiction|reflexivity].
Qed.

Lemma find_app_single {A} (f : A -> bool) (l : list A) (x : A) :
  find f (l ++ [x]) = match find f l with Some y => Some y | None => if f x then Some x else None end.
Proof.
  induction l as [|y l IH]; simpl; [reflexivity|]. destruct (f y); [reflexivity|exact IH].
Qed.

Lemma fold_obj_set_own (r : Response.t) (qs : list Question) (row : list (string * string))
  (k : string) :
  k <> "__proto__" ->
  own_property (fold_left (fun row q => obj_set row (q_title q) (export_cell r q)) qs row) k
  = match find (fun q => String.eqb (q_title q) k) (rev qs) with
    | Some q => Some (export_cell r q)
    | None => own_property row k
    end.
Proof.
  intros Hk. revert row. induction qs as [|q qs IH]; intros row; simpl; [reflexivity|].
  rewrite IH, find_app_single, (own_property_set_other _ _ _ _ Hk). simpl.
  destruct (find (fun q0 => String.eqb (q_title q0) k) (rev qs)); [reflexivity|].
  rewrite (String.eqb_sym (q_title q) k). now destruct (String.eqb k (q_title q)).
Qed.

Lemma fold_obj_set_proto (r : Response.t) (qs : list Question) (row : list (string * string)) :
  own_property row "__proto__" = None ->
  own_property (fold_left (fun row q => obj_set row (q_title q) (export_cell r q)) qs row)
    "__proto__" = None.
Proof.
  revert row. induction qs as [|q qs IH]; intros row Hrow; simpl; [exact Hrow|].
  apply IH. rewrite own_property_set.
  destruct (String.eqb_spec "__proto__" (q_title q)) as [<-|]; [|exact Hrow].
  now rewrite Hrow.
Qed.

(** In the row objects of [exportToExcel] (the objects [json_to_sheet] turns
    into sheet rows, one column per own key), the own property under a key
    holds the answer of the last question with that title: two questions
    with the same title share one column, which shows the later question's
    answer; a question titled ['Response ID'] or ['Submitted At'] overwrites
    the response's id or submission time; a question titled ['__proto__']
    adds no property, so its answer is left out of the row. *)
Theorem excel_row_lookup (questions : list Question) (r : Response.t) (k : string) :
  own_property (excel_row toLocaleString questions r) k
  = if String.eqb k "__proto__" then None
    else match find (fun q => String.eqb (q_title q) k) (rev questions) with
    | Some q => Some (export_cell r q)
    | None => if String.eqb k "Response ID" then Some (Response.id r)
              else if String.eqb k "Submitted At"
                   then Some (toLocaleString (Response.submittedAt r)) else None
    end.
Proof.
  unfold excel_row. destruct (String.eqb_spec k "__proto__") as [->|Hk].
  - now apply fold_obj_set_proto.
  - rewrite (fold_obj_set_own _ _ _ _ Hk). reflexivity.
Qed.

End ExportFacts.

Section DistributionFacts.

Local Open Scope list_scope.

Variable native_source : string -> string.

Fixpoint sumZ (l : list Z) : Z := match l with [] => 0%Z | x :: l' => (x + sumZ l')%Z end.

(** The numeric value of an entry, 0 for a string. *)
Definition numv (v : DistVal) : Z := match v with DNum n => n | DStr _ => 0%Z end.

(** The sum of the numeric entries of [distribution]. *)
Definition num_total (d : list (string * DistVal)) : Z := sumZ (map (fun e => numv (snd e)) d).

(** ["1"] repeated [n] times. *)
Fixpoint ones (n : nat) : string :=
  match n with O => EmptyString | S m => String.append (ones m) "1" end.

(** The own entry of [distribution] under [k] once [n] answers with key [k]
    have been counted: none while [n = 0] and none ever for ["__proto__"]; for
    another inherited member, its text followed by [n] ones; a number for
    every other key. *)
Definition dist_entry (k : string) (n : nat) : option DistVal :=
  if Nat.eqb n 0 then None
  else if String.eqb k "__proto__" then None
  else if is_prototype_key k
       then Some (DStr (String.append (inherited_string native_source k) (ones n)))
  else Some (DNum (Z.of_nat n)).

(** The number of answers in [l] whose key is [k]. *)
Definition key_occurrences (l : list (option AnswerValue)) (k : string) : nat :=
  length (filter (fun a => String.eqb (answer_key a) k) l).

Lemma str_append_assoc (a b c : string) :
  String.append a (String.append b c) = String.append (String.append a b) c.
Proof. induction a as [|x a IH]; simpl; [reflexivity|]. now rewrite IH. Qed.

Lemma str_append_nonempty (a b : string) : b <> EmptyString -> String.append a b <> EmptyString.
Proof. destruct a; simpl; [tauto|discriminate]. Qed.

Lemma append_ones_nonempty (s : string) (n : nat) :
  n <> O -> String.eqb (String.append s (ones n)) "" = false.
Proof.
  intros Hn. apply String.eqb_neq, str_append_nonempty.
  destruct n as [|n]; [contradiction|]. simpl. apply str_append_nonempty. discriminate.
Qed.

Lemma obj_set_keys {V} (o : list (string * V)) (k : string) (v : V) :
  map fst (obj_set o k v) = if existsb (String.eqb k) (map fst o) then map fst o
                            else if String.eqb k "__proto__" then map fst o
                            else map fst o ++ [k].
Proof.
  induction o as [|[k0 v0] o IH]; simpl; [now destruct (String.eqb k "__proto__")|].
  destruct (String.eqb k k0); simpl; [reflexivity|].
  rewrite IH. destruct (existsb (String.eqb k) (map fst o)); [reflexivity|].
  now destruct (String.eqb k "__proto__").
Qed.

Lemma obj_set_total (o : list (string * DistVal)) (k : string) (v : DistVal) :
  num_total (obj_set o k v)
  = match own_property o k with
    | Some v0 => (num_total o - numv v0 + numv v)%Z
    | None => if String.eqb k "__proto__" then num_total o else (num_total o + numv v)%Z
    end.
Proof.
  unfold num_total. induction o as [|[k0 v0] o IH]; simpl.
  - destruct (String.eqb k "__proto__"); simpl; lia.
  - destruct (String.eqb k k0); simpl; [lia|]. rewrite IH.
    destruct (own_property o k); [lia|]. destruct (String.eqb k "__proto__"); lia.
Qed.

Lemma NoDup_snoc {A} (l : list A) (x : A) : NoDup l -> ~ In x l -> NoDup (l ++ [x]).
Proof.
  induction l as [|y l IH]; intros Hnd Hx; simpl; [repeat constructor; simpl; tauto|].
  inversion Hnd as [|? ? Hy Hnd']; subst. constructor.
  - rewrite in_app_iff. intros [H | [<- | []]]; [contradiction|]. apply Hx. now left.
  - apply IH; [exact Hnd'|]. intros H. apply Hx. now right.
Qed.

Lemma obj_set_NoDup {V} (o : list (string * V)) (k : string) (v : V) :
  NoDup (map fst o) -> NoDup (map fst (obj_set o k v)).
Proof.
  intros Hnd. rewrite obj_set_keys.
  destruct (existsb (String.eqb k) (map fst o)) eqn:He; [exact Hnd|].
  destruct (String.eqb k "__proto__"); [exact Hnd|].
  apply NoDup_snoc; [exact Hnd|]. intros Hin.
  assert (Ht : existsb (String.eqb k) (map fst o) = true).
  { apply existsb_exists. exists k. split; [exact Hin | apply String.eqb_refl]. }
  congruence.
Qed.

Lemma proto_is_prototype_key : is_prototype_key "__proto__" = true.
Proof. reflexivity. Qed.

Lemma bump_step (d : list (string * DistVal)) (k : string) (cnt : string -> nat) :
  NoDup (map fst d) ->
  (forall k', own_property d k' = dist_entry k' (cnt k')) ->
  NoDup (map fst (bump native_source d k)) /\
  (forall k', own_property (bump native_source d k) k'
              = dist_entry k' (if String.eqb k' k then S (cnt k') else cnt k')) /\
  num_total (bump native_source d k)
  = (num_total d + if is_prototype_key k then 0 else 1)%Z.
Proof.
  intros Hnd Hinv. unfold bump, obj_get. rewrite (Hinv k). split; [|split].
  - now apply obj_set_NoDup.
  - intros k'. rewrite own_property_set, (Hinv k).
    destruct (String.eqb_spec k' k) as [->|Hne]; [|apply Hinv].
    unfold dist_entry. simpl.
    destruct (Nat.eqb_spec (cnt k) 0) as [H0|H0];
      destruct (String.eqb_spec k "__proto__") as [Hp|Hp]; try reflexivity;
      destruct (is_prototype_key k); simpl; try reflexivity;
      try (rewrite H0; reflexivity).
    + (* an inherited member's text, now followed by one more [1] *)
      rewrite (append_ones_nonempty _ _ H0). now rewrite str_append_assoc.
    + rewrite (proj2 (Z.eqb_neq _ _)) by lia. do 2 f_equal. lia.
  - rewrite obj_set_total, (Hinv k). unfold dist_entry.
    destruct (Nat.eqb_spec (cnt k) 0) as [H0|H0];
      destruct (String.eqb_spec k "__proto__") as [->|Hp];
      rewrite ?proto_is_prototype_key; simpl; try lia;
      destruct (is_prototype_key k); simpl; try reflexivity.
    + rewrite (append_ones_nonempty _ _ H0). simpl. lia.
    + rewrite (proj2 (Z.eqb_neq _ _)) by lia. lia.
Qed.

Lemma fold_bump_facts (l : list (option AnswerValue)) (d : list (string * DistVal))
  (cnt : string -> nat) :
  NoDup (map fst d) ->
  (forall k, own_property d k = dist_entry k (cnt k)) ->
  let d' := fold_left (fun d a => bump native_source d (answer_key a)) l d in
  NoDup (map fst d') /\
  (forall k, own_property d' k = dist_entry k (cnt k + key_occurrences l k)) /\
  num_total d' = (num_total d
                  + Z.of_nat (length (filter (fun a => negb (is_prototype_key (answer_key a))) l)))%Z.
Proof.
  revert d cnt. induction l as [|a l IH]; intros d cnt Hnd Hinv; simpl.
  - split; [exact Hnd|split]; [|lia].
    intros k. rewrite Hinv. f_equal. unfold key_occurrences. simpl. lia.
  - destruct (bump_step d (answer_key a) cnt Hnd Hinv) as (Hnd' & Hc & Hs).
    destruct (IH _ _ Hnd' Hc) as (H1 & H2 & H3). split; [exact H1|split].
    + intros k. rewrite H2. f_equal. unfold key_occurrences. simpl.
      rewrite (String.eqb_sym (answer_key a) k).
      destruct (String.eqb k (answer_key a)); simpl; lia.
    + rewrite H3, Hs. destruct (is_prototype_key (answer_key a)); simpl; lia.
Qed.

(** The [distribution] of a multiple-choice question counts the responses
    whose answer to it is truthy ([filter(Boolean)]: an empty string or the
    number 0 is left out), each under its answer converted to a string. It
    has at most one entry per key, and after [n] answers with key [k] its
    entry under [k] is: none when [n = 0]; the number [n] when [k] is not the
    name of a member of [Object.prototype]; none for ['__proto__'] (those
    answers are lost); for another member such as ['toString'] or
    ['constructor'], the member's text followed by [n] ones, a string and
    not a count. The numeric entries add up to the number of counted answers
    whose key is not such a name. *)
Theorem choice_distribution_counts (responses : list Response.t) (questionId : string) :
  let d := choice_distribution native_source responses questionId in
  let l := truthy_answers responses questionId in
  NoDup (map fst d) /\
  (forall k, own_property d k = dist_entry k (key_occurrences l k)) /\
  num_total d = Z.of_nat (length (filter (fun a => negb (is_prototype_key (answer_key a))) l)).
Proof.
  destruct (fold_bump_facts (truthy_answers responses questionId) [] (fun _ => O)
              (NoDup_nil _) (fun k => eq_refl)) as (H1 & H2 & H3).
  split; [exact H1|split].
  - intros k. unfold choice_distribution. rewrite H2. reflexivity.
  - unfold choice_distribution. rewrite H3. reflexivity.
Qed.

End DistributionFacts.

(** ** [ResponseCount] of [SurveyList] *)

(** [getResponsesForSurvey(surveyId, user || undefined)], then
    [setCount(responses.length)], or [setCount(0)] when it rejects. *)
Definition ResponseCount {St} (be : Backend St) (useFallback : bool) (surveyId : string)
  (user : option User.t) : M St Z :=
  fun w =>
    match getResponsesForSurvey be useFallback surveyId user w with
    | (Resolved responses, w') => (Resolved (Z.of_nat (length responses)), w')
    | (Rejected _, w') => (Resolved 0%Z, w')
    end.

(** In remote mode, the count [SurveyList] shows next to a survey for a
    signed-in user [u] (survey ids being unique) is the number of stored
    responses to it when [u] owns it, and 0 for a survey of another user
    (the active public surveys of others that [getSurveys] lists), whatever
    number of responses it has. *)
Theorem ResponseCount_owner_only (c : Pg.Conn) (u : User.t) (sid : string) (w : World Pg.DB)
  (Hrole : Pg.role c = Pg.Authenticated (User.id u))
  (Huniq : NoDup (map DatabaseSurvey.id (Pg.surveys (remote w)))) :
  (forall S, In S (Pg.surveys (remote w)) -> DatabaseSurvey.id S = sid ->
     DatabaseSurvey.user_id S = Some (User.id u) ->
     ResponseCount (Pg.backend c) false sid (Some u) w
     = (Resolved (Z.of_nat (length (filter (fun r => String.eqb (DatabaseResponse.survey_id r) sid)
                                      (Pg.responses (remote w))))), w)) /\
  ((forall S, In S (Pg.surveys (remote w)) -> DatabaseSurvey.id S = sid ->
      DatabaseSurvey.user_id S <> Some (User.id u)) ->
   ResponseCount (Pg.backend c) false sid (Some u) w = (Resolved 0%Z, w)).
Proof.
  split.
  - intros S HS Hid Hown.
    unfold ResponseCount, getResponsesForSurvey, bind, query, ret, throw; simpl.
    unfold Pg.pg_select_survey_owner.
    rewrite (filter_unique_key DatabaseSurvey.id _ _ S Huniq HS).
    2:{ intros y _ Hy. apply andb_prop in Hy as [Hy _].
        apply andb_prop in Hy as [_ Hy]. apply String.eqb_eq in Hy. congruence. }
    rewrite Hrole. simpl. rewrite Hown, Hid, String.eqb_refl. simpl.
    rewrite ?String.eqb_refl. simpl.
    rewrite length_map, (Permutation_length (sort_desc_perm DatabaseResponse.submitted_at _)).
    unfold Pg.visible_responses. rewrite ?Hrole. reflexivity.
  - intros Hnone. unfold ResponseCount, getResponsesForSurvey, bind, query, ret, throw; simpl.
    unfold Pg.pg_select_survey_owner.
    rewrite filter_none; [reflexivity|].
    intros y Hy. destruct (String.eqb_spec (DatabaseSurvey.id y) sid) as [E|E].
    + rewrite (user_is_neq _ _ (Hnone y Hy E)). apply andb_false_r.
    + now rewrite andb_false_r.
Qed.

Lemma ResponseCount_owner_only_witness :
  let w := mkWorld (mkLocalStore [] []) (Pg.mkDB [owned_row] [early_response; late_response]) 200 in
  (forall S, In S (Pg.surveys (remote w)) -> DatabaseSurvey.id S = "s1" ->
     DatabaseSurvey.user_id S = Some (User.id (User.mk "u")) ->
     ResponseCount (Pg.backend owner_conn) false "s1" (Some (User.mk "u")) w
     = (Resolved (Z.of_nat (length (filter (fun r => String.eqb (DatabaseResponse.survey_id r) "s1")
                                      (Pg.responses (remote w))))), w)) /\
  ((forall S, In S (Pg.surveys (remote w)) -> DatabaseSurvey.id S = "s1" ->
      DatabaseSurvey.user_id S <> Some (User.id (User.mk "u"))) ->
   ResponseCount (Pg.backend owner_conn) false "s1" (Some (User.mk "u")) w = (Resolved 0%Z, w)).
Proof.
  exact (ResponseCount_owner_only owner_conn (User.mk "u") "s1"
           (mkWorld (mkLocalStore [] []) (Pg.mkDB [owned_row] [early_response; late_response]) 200)
           eq_refl ltac:(repeat constructor; simpl; tauto)).
Defined.

(** ** [handleSave] of [SurveyBuilder] *)

(** Leading characters of [\s] removed. *)
Fixpoint drop_spaces (l : list ascii) : list ascii :=
  match l with
  | [] => []
  | c :: l' => if is_js_space c then drop_spaces l' else l
  end.

(** [s.trim()] on ASCII strings (white space and line terminators). *)
Definition js_trim (s : string) : string :=
  string_of_list_ascii (rev (drop_spaces (rev (drop_spaces (list_ascii_of_string s))))).

(** A number held by the builder: [parseInt] of the limit field may give
    [NaN]. *)
Inductive JsNumber := JsNaN | JsInt (z : Z).

(** The builder's state; [expiresAt] is the instant of the date field, [None]
    for [''].*)
Record BuilderState := mkBuilderState {
  b_title : string;
  b_description : string;
  b_questions : list Question;
  b_isActive : bool;
  b_allowPublicAccess : bool;
  b_responseLimit : option JsNumber;
  b_expiresAt : option Z
}.

(** What [handleSave] does: an [alert] and nothing else, or
    [databaseUtils.saveSurvey(surveyData, ...)] on the survey it builds. *)
Inductive SaveStep := Alert (msg : string) | Submit (surveyData : Survey.t).

Definition is_choice_type (t : QuestionType) : bool :=
  match t with QMultipleChoice | QMultipleSelect => true | _ => false end.

(** [for (const question of questions) { ... }] *)
Fixpoint question_error (questions : list Question) : option string :=
  match questions with
  | [] => None
  | q :: qs =>
      if String.eqb (js_trim (q_title q)) "" then Some "Please fill in all question titles"
      else if is_choice_type (q_type q) &&
              match q_options q with None => true | Some o => Nat.ltb (length o) 2 end
      then Some "Multiple choice questions must have at least 2 options"
      else question_error qs
  end.

(** [responseLimit || undefined] *)
Definition limit_or_undefined (n : option JsNumber) : option Z :=
  match n with
  | Some (JsInt z) => if Z.eqb z 0 then None else Some z
  | Some JsNaN | None => None
  end.

(** [handleSave]: [survey] is the survey being edited, [uuid1] and [uuid2]
    the values of the two [generateUUID()] calls, [now] the instant of
    [new Date()]. *)
Definition handleSave (survey : option Survey.t) (st : BuilderState) (uuid1 uuid2 : string)
  (now : Z) : SaveStep :=
  if String.eqb (js_trim (b_title st)) "" then Alert "Please enter a survey title"
  else if Nat.eqb (length (b_questions st)) 0 then Alert "Please add at least one question"
  else match question_error (b_questions st) with
  | Some m => Alert m
  | None =>
      Submit (Survey.mk
        (match survey with
         | Some s => if String.eqb (Survey.id s) "" then uuid1 else Survey.id s
         | None => uuid1 end)
        (match survey with
         | Some s => match Survey.publicId s with
                     | Some p => if String.eqb p "" then Some uuid2 else Some p
                     | None => Some uuid2 end
         | None => Some uuid2 end)
        (js_trim (b_title st)) (js_trim (b_description st)) (b_questions st)
        (match survey with Some s => Survey.createdAt s | None => now end)
        (b_isActive st) (Some (b_allowPublicAccess st))
        (limit_or_undefined (b_responseLimit st)) (b_expiresAt st))
  end.

Lemma question_error_none (qs : list Question) :
  question_error qs = None ->
  forall q, In q qs -> js_trim (q_title q) <> "" /\
    (is_choice_type (q_type q) = true -> exists o, q_options q = Some o /\ 2 <= length o)%nat.
Proof.
  induction qs as [|q qs IH]; simpl; [tauto|].
  destruct (String.eqb_spec (js_trim (q_title q)) "") as [_|Ht]; [discriminate|].
  destruct (is_choice_type (q_type q)) eqn:Hc; simpl.
  - destruct (q_options q) as [o|] eqn:Ho; [|discriminate].
    destruct (Nat.ltb_spec (length o) 2); [discriminate|].
    intros Hn x [<- | Hx]; [|now apply IH].
    split; [exact Ht|]. intros _. now exists o.
  - intros Hn x [<- | Hx]; [|now apply IH].
    split; [exact Ht|]. rewrite Hc. discriminate.
Qed.

(** When [handleSave] goes on to [saveSurvey], the survey it sends has a
    non-blank trimmed title, at least one question, every question with a
    non-blank title and every choice question with at least two options, and
    no response limit 0 (0 and [NaN] mean no limit); it passes the
    required-fields check of [saveSurvey] for every signed-in user. *)
Theorem handleSave_submits_valid (survey : option Survey.t) (st : BuilderState)
  (uuid1 uuid2 : string) (now : Z) (sd : Survey.t)
  (Hsave : handleSave survey st uuid1 uuid2 now = Submit sd) :
  Survey.title sd = js_trim (b_title st) /\ Survey.title sd <> "" /\
  Survey.questions sd = b_questions st /\ Survey.questions sd <> [] /\
  (forall q, In q (Survey.questions sd) -> js_trim (q_title q) <> "" /\
     (is_choice_type (q_type q) = true -> exists o, q_options q = Some o /\ 2 <= length o)%nat) /\
  Survey.responseLimit sd <> Some 0%Z /\
  (forall u, truthy (get (surveyData sd u) "title") = true /\
             truthy (get (surveyData sd u) "questions") = true).
Proof.
  unfold handleSave in Hsave.
  destruct (String.eqb_spec (js_trim (b_title st)) "") as [_|Ht]; [discriminate|].
  destruct (Nat.eqb_spec (length (b_questions st)) 0) as [_|Hq]; [discriminate|].
  destruct (question_error (b_questions st)) eqn:He; [discriminate|].
  injection Hsave as <-. simpl.
  split; [reflexivity|]. split; [exact Ht|]. split; [reflexivity|].
  split; [intros E; apply Hq; now rewrite E|].
  split; [now apply question_error_none|].
  split.
  - unfold limit_or_undefined. destruct (b_responseLimit st) as [[|z]|]; try discriminate.
    destruct (Z.eqb_spec z 0); [discriminate|]. intros E. injection E. contradiction.
  - intros u. unfold surveyData, transformAppSurvey. simpl.
    destruct survey as [s|]; [destruct (Survey.publicId s) as [p|]; [destruct (String.eqb p "")|]|];
    simpl; rewrite ?negb_true_iff; (split; [apply String.eqb_neq; exact Ht | reflexivity]).
Qed.

Definition sample_builder : BuilderState :=
  mkBuilderState " Feedback " "" [sample_question "a"] true true (Some (JsInt 0)) None.

Definition sample_saved : Survey.t :=
  Survey.mk "u1" (Some "u2") "Feedback" "" [sample_question "a"] 100 true (Some true) None None.

Lemma handleSave_submits_valid_witness :
  handleSave None sample_builder "u1" "u2" 100 = Submit sample_saved /\
  (Survey.title sample_saved = js_trim (b_title sample_builder) /\ Survey.title sample_saved <> "" /\
   Survey.questions sample_saved = b_questions sample_builder /\
   Survey.questions sample_saved <> [] /\
   (forall q, In q (Survey.questions sample_saved) -> js_trim (q_title q) <> "" /\
      (is_choice_type (q_type q) = true ->
       exists o, q_options q = Some o /\ 2 <= length o)%nat) /\
   Survey.responseLimit sample_saved <> Some 0%Z /\
   (forall u, truthy (get (surveyData sample_saved u) "title") = true /\
              truthy (get (surveyData sample_saved u) "questions") = true)).
Proof.
  split; [vm_compute; reflexivity|].
  exact (handleSave_submits_valid None sample_builder "u1" "u2" 100 sample_saved
           ltac:(vm_compute; reflexivity)).
Defined.
